(** * HyperSalineBuffer: the buffer calculator of [buffer_web/app.py]

    A shallow embedding of the calculator's core (water mass, ion
    molalities, buffer recipe, PHREEQC input script, classification of the
    solver's rows, boron speciation ratio) and the properties its
    specification states about it.

    The Python text applies [+ - * / > max round] and [f"{x:.nf}"] to
    numbers without naming their type.  The embedding is therefore written
    once, over the interface [PyNumber] of exactly these operations, and is
    read at two carriers:

    - [float], IEEE-754 binary64 with round-to-nearest-even: the numbers
      CPython computes with;
    - [Q], exact rationals: the arithmetic in which the formulas of the
      specification are written.

    Exceptions are values of [result]; the external solver and Python's
    parser of numerals are parameters of the request handlers. *)

From Stdlib Require Import ZArith QArith Qround Qabs Floats String Ascii List Bool.
From Stdlib Require Import DecimalString Lia Lqa.
From stdpp Require Import gmap strings.

Set Warnings "-inexact-float".
Local Open Scope Z_scope.
Local Open Scope string_scope.

(** ** Exceptions and the result of a fallible computation *)

Inductive exn : Type :=
| ZeroDivisionError
| KeyError (key : string)
| ValueError
| TypeError
| RuntimeError (msg : string).

Inductive result (A : Type) : Type :=
| Ok (a : A)
| Raise (e : exn).
Arguments Ok {A} a.
Arguments Raise {A} e.

#[export] Instance result_ret : MRet result := fun _ a => Ok a.
#[export] Instance result_bind : MBind result := fun _ _ k c =>
  match c with
  | Ok a => k a
  | Raise e => Raise e
  end.

(** ** Decimal rounding on exact values

    [round(x, n)] and the format [.nf] both round the exact value of [x] to
    [n] decimals, ties to the even digit. *)

Definition pow10 (n : nat) : Z := 10 ^ Z.of_nat n.

Definition round_half_even (q : Q) : Z :=
  let f := Qfloor q in
  match Qcompare (2 * (q - inject_Z f))%Q 1%Q with
  | Lt => f
  | Gt => f + 1
  | Eq => if Z.even f then f else f + 1
  end.

(** The scaled integer [round_half_even (|q| * 10^n)]. *)
Definition scaled_digits (n : nat) (q : Q) : Z :=
  round_half_even (Qabs q * inject_Z (pow10 n))%Q.

Definition string_of_N (k : N) : string := NilZero.string_of_uint (N.to_uint k).

Fixpoint zeros (k : nat) : string :=
  match k with
  | O => ""
  | S k' => "0" ++ zeros k'
  end.

(** [fixed neg r n]: the decimal text of [r / 10^n] with exactly [n]
    fractional digits, after a minus sign when [neg]. *)
Definition fixed (neg : bool) (r : Z) (n : nat) : string :=
  let ip := string_of_N (Z.to_N (r / pow10 n)) in
  let fp := string_of_N (Z.to_N (r mod pow10 n)) in
  (if neg then "-" else "") ++ ip ++
  match n with
  | O => ""
  | S _ => "." ++ zeros (n - String.length fp) ++ fp
  end.

(** ** The numbers of the program *)

Class PyNumber (F : Type) : Type := {
  of_int : Z -> F;             (* an [int] operand meeting a float *)
  lit : Q -> F;                (* a decimal literal of the source text *)
  add : F -> F -> F;
  sub : F -> F -> F;
  mul : F -> F -> F;
  quot : F -> F -> F;          (* [/] once the divisor is known non-zero *)
  gt : F -> F -> bool;         (* [a > b] *)
  is_zero : F -> bool;         (* [b == 0], the test before a division *)
  round_to : nat -> F -> F;    (* [round(x, n)] *)
  format_f : nat -> F -> string (* [f"{x:.nf}"] *)
}.

Declare Scope py_scope.
Delimit Scope py_scope with py.
Infix "+" := add : py_scope.
Infix "-" := sub : py_scope.
Infix "*" := mul : py_scope.
Infix ">?" := gt (at level 70) : py_scope.

Section PyOps.
Context {F : Type} `{PyNumber F}.

(** [a / b]: ZeroDivisionError on a zero divisor. *)
Definition div (a b : F) : result F :=
  if is_zero b then Raise ZeroDivisionError else Ok (quot a b).

(** [max(a, b)] of two arguments: [b] when [b > a], else [a]. *)
Definition pymax (a b : F) : F := if gt b a then b else a.
End PyOps.

(** ** Carrier 1: binary64 *)

Module Binary64.

(** An integer as an (unnormalised) specification float. *)
Definition SF_of_Z (z : Z) : spec_float :=
  match z with
  | Z0 => S754_zero false
  | Zpos p => S754_finite false p 0
  | Zneg p => S754_finite true p 0
  end.

(** The float nearest to [n / d], ties to even. *)
Definition nearest (n : Z) (d : positive) : float :=
  SF2Prim (SFdiv prec emax (SF_of_Z n) (S754_finite false d 0)).

Definition of_int (z : Z) : float :=
  SF2Prim (binary_normalize prec emax z 0 false).

Definition lit (q : Q) : float := nearest (Qnum q) (Qden q).

(** The exact value of a finite float. *)
Definition to_Q (x : float) : Q :=
  match Prim2SF x with
  | S754_finite s m e =>
      let v := (inject_Z (Zpos m) * Qpower 2 e)%Q in
      if s then Qopp v else v
  | _ => 0%Q
  end.

Definition sign_bit (x : float) : bool :=
  match Prim2SF x with
  | S754_zero s | S754_infinity s | S754_finite s _ _ => s
  | S754_nan => false
  end.

(** [round(x, n)]: the float nearest to the exact value of [x] rounded to
    [n] decimals; zeros, infinities and NaN are returned unchanged, and
    the sign of [x] is kept when the result is zero. *)
Definition round_to (n : nat) (x : float) : float :=
  match Prim2SF x with
  | S754_finite s _ _ =>
      let r := scaled_digits n (to_Q x) in
      let v := nearest r (Z.to_pos (pow10 n)) in
      if s then PrimFloat.opp v else v
  | _ => x
  end.

Definition format_f (n : nat) (x : float) : string :=
  match Prim2SF x with
  | S754_nan => "nan"
  | S754_infinity s => if s then "-inf" else "inf"
  | S754_zero s => fixed s 0 n
  | S754_finite s _ _ => fixed s (scaled_digits n (to_Q x)) n
  end.

#[global] Instance number : PyNumber float :=
  Build_PyNumber float of_int lit
    PrimFloat.add PrimFloat.sub PrimFloat.mul PrimFloat.div
    (fun a b => PrimFloat.ltb b a)
    (fun b => PrimFloat.eqb b 0%float)
    round_to format_f.

(** Finite: neither an infinity nor NaN. *)
Definition is_finite (x : float) : bool :=
  match Prim2SF x with
  | S754_zero _ | S754_finite _ _ _ => true
  | _ => false
  end.

End Binary64.

(** ** Carrier 2: exact rationals *)

Module Exact.

Definition round_to (n : nat) (q : Q) : Q :=
  let r := scaled_digits n q in
  Qmake (if Qlt_le_dec q 0%Q then Z.opp r else r) (Z.to_pos (pow10 n)).

Definition format_f (n : nat) (q : Q) : string :=
  fixed (if Qlt_le_dec q 0%Q then true else false) (scaled_digits n q) n.

#[global] Instance number : PyNumber Q :=
  Build_PyNumber Q inject_Z (fun q => q)
    Qplus Qminus Qmult Qdiv
    (fun a b => if Qlt_le_dec b a then true else false)
    (fun b => Qeq_bool b 0%Q)
    round_to format_f.

End Exact.

(** ** Values met in dictionaries

    The request payload and the solver's rows are dictionaries whose values
    are numbers or strings. *)

Inductive value (F : Type) : Type :=
| VNum (x : F)
| VStr (s : string).
Arguments VNum {F} x.
Arguments VStr {F} s.

(** [v == s] for a string literal [s]. *)
Definition value_is {F : Type} (v : value F) (s : string) : bool :=
  match v with
  | VStr t => String.eqb t s
  | VNum _ => false
  end.

Definition TAB : string := String (ascii_of_nat 9) "".
Definition NL : string := String (ascii_of_nat 10) "".

Definition string_of_int (z : Z) : string :=
  match z with
  | Zneg p => "-" ++ string_of_N (Npos p)
  | _ => string_of_N (Z.to_N z)
  end.

(** The six major ions, in mmol/kgw ([ion_mmol_kgw] of the source). *)
Record ions (F : Type) : Type := Ions {
  Na : F; K : F; Li : F; Mg : F; Ca : F; SO4 : F
}.
Arguments Ions {F}.
Arguments Na {F}. Arguments K {F}. Arguments Li {F}.
Arguments Mg {F}. Arguments Ca {F}. Arguments SO4 {F}.

(** The salt molalities [C12 .. C18] (hidden!C12:C18). *)
Record salts (F : Type) : Type := Salts {
  MgCl2 : F; CaCl2 : F; LiCl : F; MgSO4 : F; NaCl : F; KCl : F; Na2SO4 : F
}.
Arguments Salts {F}.
Arguments MgCl2 {F}. Arguments CaCl2 {F}. Arguments LiCl {F}.
Arguments MgSO4 {F}. Arguments NaCl {F}. Arguments KCl {F}.
Arguments Na2SO4 {F}.

(** One line of the recipe. *)
Record entry (F : Type) : Type := Entry {
  mmol : F; g : F; mw : F; form : value F
}.
Arguments Entry {F}.
Arguments mmol {F}. Arguments g {F}. Arguments mw {F}. Arguments form {F}.

(** The titration setup (data!J15:J20). *)
Record params (F : Type) : Type := mk_params {
  H3BO3_conc : F; H3BO3_vol : F; sample_vol : F; NaOH_conc : F; NaOH_vol : F;
  pH : F
}.
Arguments mk_params {F}.
Arguments H3BO3_conc {F}. Arguments H3BO3_vol {F}. Arguments sample_vol {F}.
Arguments NaOH_conc {F}. Arguments NaOH_vol {F}. Arguments pH {F}.

(** One point of the titration curve. *)
Record point (F : Type) : Type := Point {
  state : string; V_NaOH : F; point_pH : option F; B4B3 : F
}.
Arguments Point {F}.
Arguments state {F}. Arguments V_NaOH {F}. Arguments point_pH {F}.
Arguments B4B3 {F}.

(** What a route answers: the JSON of a success, or status 500 with the
    text of the exception. *)
Inductive response (A : Type) : Type :=
| Json (a : A)
| Error500 (e : exn).
Arguments Json {A} a.
Arguments Error500 {A} e.

Definition respond {A : Type} (c : result A) : response A :=
  match c with
  | Ok a => Json a
  | Raise e => Error500 e
  end.

Record recipe_json (F : Type) : Type := RecipeJson {
  rj_recipe : list (string * entry F);
  rj_water_mass : F
}.
Arguments RecipeJson {F}.
Arguments rj_recipe {F}. Arguments rj_water_mass {F}.

Record calculate_json (F : Type) : Type := CalculateJson {
  cj_titration : list (point F);
  cj_recipe : list (string * entry F);
  cj_water_mass : F;
  cj_ion_mmol_kgw : list (string * F);
  cj_n_steps : Z
}.
Arguments CalculateJson {F}.
Arguments cj_titration {F}. Arguments cj_recipe {F}.
Arguments cj_water_mass {F}. Arguments cj_ion_mmol_kgw {F}.
Arguments cj_n_steps {F}.

Section App.
Context {F : Type} `{PyNumber F}.
Local Open Scope py_scope.

Abbreviation dict := (gmap string (value F)).

(** *** Atomic weights (hidden!Q3:Q13) *)
Definition Q3 : F := lit 22.989769.   (* Na *)
Definition Q4 : F := lit 39.0983.     (* K *)
Definition Q5 : F := lit 6.941.       (* Li *)
Definition Q6 : F := lit 24.305.      (* Mg *)
Definition Q7 : F := lit 40.078.      (* Ca *)
Definition Q8 : F := lit 32.02.       (* S *)
Definition Q9 : F := lit 35.453.      (* Cl *)
Definition Q10 : F := lit 18.01528.   (* H2O *)
Definition Q11 : F := lit 1.0.        (* H *)

(** *** Salt molar masses (hidden!J3:J13) *)
Definition J3 : F := lit 95.211.                 (* MgCl2 anhydrous *)
Definition J4 : F := J3 + of_int 6 * Q10.        (* MgCl2.6H2O *)
Definition J6 : F := lit 110.984.                (* CaCl2 anhydrous *)
Definition J7 : F := J6 + of_int 2 * Q10.        (* CaCl2.2H2O *)
Definition J9 : F := lit 120.366.                (* MgSO4 anhydrous *)
Definition J10 : F := J9 + of_int 7 * Q10.       (* MgSO4.7H2O *)
Definition J12 : F := lit 142.04.                (* Na2SO4 anhydrous *)
Definition J13 : F := lit 322.2.                 (* Na2SO4.10H2O *)
Definition D14 : F := lit 42.394.                (* LiCl *)
Definition D16 : F := lit 58.44.                 (* NaCl *)
Definition D17 : F := lit 74.55.                 (* KCl *)

(** [math.log10(0.000426)]; the logarithm is not an operation of
    [PyNumber], and the source records its value, -3.370590401, to the
    nine decimals the script prints. *)
Definition CO2_LOG : F := lit (-3.370590401).
Definition RF : Z := 200.

(** *** Water mass (hidden!M10) *)
Definition calc_water_mass (density tds : F) (tds_unit : value F) : result F :=
  if value_is tds_unit "g/L" then
    div (of_int 1000 * density - tds) (of_int 1000)
  else
    div (of_int 1000 * density - tds * density) (of_int 1000).

(** *** Ion mg/L to mmol/kgw (hidden!C3:C8) *)
Definition to_mmol_kgw (mg_per_L MW water_mass : F) : result F :=
  x ← div mg_per_L water_mass; div x MW.

(** *** Buffer recipe *)

(** Lines 123-141 of [build_recipe]: flags and salt molalities. *)
Definition build_recipe_salts (ion_mmol_kgw : ions F) : salts F :=
  let C3 := Na ion_mmol_kgw in
  let C4 := K ion_mmol_kgw in
  let C5 := Li ion_mmol_kgw in
  let C6 := Mg ion_mmol_kgw in
  let C7 := Ca ion_mmol_kgw in
  let C8 := SO4 ion_mmol_kgw in
  let A18 : Z := if C8 >? C6 then 1 else 0 in
  let A15 : Z := if (A18 =? 1)%Z then 0 else 1 in
  let C12 := pymax (lit 0.0) (C6 - C8 * of_int A15) in
  let C13 := pymax (lit 0.0) C7 in
  let C14 := pymax (lit 0.0) C5 in
  let C15 := pymax (lit 0.0) C8 * of_int A15 in
  let C16 := pymax (lit 0.0) (C3 - of_int 2 * C8 * of_int A18) in
  let C17 := pymax (lit 0.0) C4 in
  let C18 := pymax (lit 0.0) C8 * of_int A18 in
  Salts C12 C13 C14 C15 C16 C17 C18.

(** [hydration.get(salt_key, 'Anhydrous')]. *)
Definition hydration_form (hydration : dict) (salt_key : string) : value F :=
  default (VStr "Anhydrous") (hydration !! salt_key).

Definition is_anhydrous (hydration : dict) (salt_key : string) : bool :=
  value_is (hydration_form hydration salt_key) "Anhydrous".

(** Lines 152-155: the molar mass used for each hydration-sensitive salt. *)
Definition D12 (hydration : dict) : F := if is_anhydrous hydration "MgCl2" then J3 else J4.
Definition D13 (hydration : dict) : F := if is_anhydrous hydration "CaCl2" then J6 else J7.
Definition D15 (hydration : dict) : F := if is_anhydrous hydration "MgSO4" then J9 else J10.
Definition D18 (hydration : dict) : F := if is_anhydrous hydration "Na2SO4" then J12 else J13.

Definition build_recipe (ion_mmol_kgw : ions F) (hydration : dict)
  : result (list (string * entry F)) :=
  let s := build_recipe_salts ion_mmol_kgw in
  let C12 := MgCl2 s in let C13 := CaCl2 s in let C14 := LiCl s in
  let C15 := MgSO4 s in let C16 := NaCl s in let C17 := KCl s in
  let C18 := Na2SO4 s in
  let D12 := D12 hydration in let D13 := D13 hydration in
  let D15 := D15 hydration in let D18 := D18 hydration in
  (* g/kgw (hidden!E12:E18) *)
  E12 ← div (D12 * C12) (of_int 1000);
  E13 ← div (D13 * C13) (of_int 1000);
  E14 ← div (D14 * C14) (of_int 1000);
  E15 ← div (D15 * C15) (of_int 1000);
  E16 ← div (D16 * C16) (of_int 1000);
  E17 ← div (D17 * C17) (of_int 1000);
  E18 ← div (D18 * C18) (of_int 1000);
  (* hydration water (hidden!I18:I21, J18:J21, I17) *)
  let J18 : Z := if is_anhydrous hydration "MgCl2" then 0 else 1 in
  let J19 : Z := if is_anhydrous hydration "CaCl2" then 0 else 1 in
  let J20 : Z := if is_anhydrous hydration "MgSO4" then 0 else 1 in
  let J21 : Z := if is_anhydrous hydration "Na2SO4" then 0 else 1 in
  I18 ← div (C12 * of_int 6 * Q10) (of_int 1000);
  I19 ← div (C13 * of_int 2 * Q10) (of_int 1000);
  I20 ← div (C15 * of_int 7 * Q10) (of_int 1000);
  I21 ← div (C18 * of_int 10 * Q10) (of_int 1000);
  let I16 := lit 1000.0 in
  let I17 := I16 - of_int J18 * I18 - of_int J19 * I19
                 - of_int J20 * I20 - of_int J21 * I21 in
  let water_g := pymax (lit 0.0) I17 in
  water_mmol ← div water_g Q10;
  let anh := VStr "Anhydrous" in
  mret
    [ ("MgCl₂", Entry (round_to 4 C12) (round_to 4 E12) (round_to 3 D12)
                  (hydration_form hydration "MgCl2"));
      ("CaCl₂", Entry (round_to 4 C13) (round_to 4 E13) (round_to 3 D13)
                  (hydration_form hydration "CaCl2"));
      ("LiCl", Entry (round_to 4 C14) (round_to 4 E14) (round_to 3 D14) anh);
      ("MgSO₄", Entry (round_to 4 C15) (round_to 4 E15) (round_to 3 D15)
                  (hydration_form hydration "MgSO4"));
      ("NaCl", Entry (round_to 4 C16) (round_to 4 E16) (round_to 3 D16) anh);
      ("KCl", Entry (round_to 4 C17) (round_to 4 E17) (round_to 3 D17) anh);
      ("Na₂SO₄", Entry (round_to 4 C18) (round_to 4 E18) (round_to 3 D18)
                  (hydration_form hydration "Na2SO4"));
      ("H₂O", Entry (round_to 2 water_mmol) (round_to 2 water_g)
                  (round_to 3 Q10) (VStr "liquid")) ].

(** *** PHREEQC input string *)

Definition tabbed (fields : list string) : string :=
  match fields with
  | [] => ""
  | f :: fs => fold_left (fun acc x => acc ++ TAB ++ x) fs f
  end.

(** A line of the script: its fields separated by tabs, then a newline. *)
Definition ln (fields : list string) : string := tabbed fields ++ NL.

Definition concat_lines (ls : list string) : string :=
  fold_right String.append "" ls.

(** Lines 220-236 of [build_phreeqc_input]: flags and salt molalities. *)
Definition build_phreeqc_input_salts (ion_mmol_kgw : ions F) : salts F :=
  let C3 := Na ion_mmol_kgw in
  let C4 := K ion_mmol_kgw in
  let C5 := Li ion_mmol_kgw in
  let C6 := Mg ion_mmol_kgw in
  let C7 := Ca ion_mmol_kgw in
  let C8 := SO4 ion_mmol_kgw in
  let A18 : Z := if C8 >? C6 then 1 else 0 in
  let A15 : Z := if (A18 =? 1)%Z then 0 else 1 in
  let C12 := pymax (lit 0.0) (C6 - C8 * of_int A15) in
  let C13 := pymax (lit 0.0) C7 in
  let C14 := pymax (lit 0.0) C5 in
  let C15 := pymax (lit 0.0) C8 * of_int A15 in
  let C16 := pymax (lit 0.0) (C3 - of_int 2 * C8 * of_int A18) in
  let C17 := pymax (lit 0.0) C4 in
  let C18 := pymax (lit 0.0) C8 * of_int A18 in
  Salts C12 C13 C14 C15 C16 C17 C18.

(** The local [r]: [f"{val / RF:.9f}"]. *)
Definition r (val : F) : result string :=
  q ← div val (of_int RF); mret (format_f 9 q).

Definition build_phreeqc_input (ion_mmol_kgw : ions F) (p : params F)
    (water_mass : F) : result (string * Z) :=
  let s := build_phreeqc_input_salts ion_mmol_kgw in
  let C12 := MgCl2 s in let C13 := CaCl2 s in let C14 := LiCl s in
  let C15 := MgSO4 s in let C16 := NaCl s in let C17 := KCl s in
  let C18 := Na2SO4 s in
  (* kgw in the sample aliquot *)
  kgw_sample ← div (sample_vol p * water_mass) (of_int 1000);
  (* hidden!M6, M7, M9, M8 *)
  let M6 := H3BO3_conc p * H3BO3_vol p in
  M7 ← div M6 kgw_sample;
  let M9 := NaOH_conc p * NaOH_vol p in
  M8 ← div M9 kgw_sample;
  (* input!C40, C49 *)
  H3BO3_H2O ← div (lit 55.5556) (H3BO3_conc p);
  NaOH_H2O ← div (lit 55.5556) (NaOH_conc p);
  (* input!E50 *)
  let n_steps : Z := 20 in
  r12 ← r C12; r13 ← r C13; r14 ← r C14; r15 ← r C15;
  r16 ← r C16; r17 ← r C17; r18 ← r C18;
  let pqi := concat_lines
    [ ln ["SELECTED_OUTPUT 1"];
      ln ["-molalities"; "B(OH)3  B(OH)4- "];
      ln [""; "B3O3(OH)4-  B4O5(OH)4-2  MgB(OH)4+  CaB(OH)4+"];
      ln ["-ionic_strength       "; "true"];
      ln ["-pH"; "true"];
      ln ["-user_punch"; "true"];
      ln ["-water"; "true"];
      ln ["-alkalinity"; "true"];
      ln ["USER_PUNCH "; "1"];
      ln ["-headings "; "Volume Density"];
      ln ["-start"];
      ln ["10"; "PUNCH SOLN_VOL"];
      ln ["20"; "PUNCH RHO"];
      ln ["30"; "END"];
      ln ["SOLUTION"; "1"];
      ln [""; "temp"; "20"];
      ln [""; "pH"; "7"];
      ln [""; "pe"; "4"];
      ln [""; "redox"; "pe"];
      ln [""; "units"; "mol/l"];
      ln [""; "C(4)"; "1"; "CO2(g)"; format_f 9 CO2_LOG];
      ln [""; "-water"; "1"; "#"; "kg"];
      NL;
      ln ["REACTION"; "1"];
      ln [""; "MgCl2"; r12];
      ln [""; "CaCl2"; r13];
      ln [""; "LiCl"; r14];
      ln [""; "MgSO4"; r15];
      ln [""; "NaCl"; r16];
      ln [""; "KCl"; r17];
      ln [""; "Na2SO4"; r18];
      NL;
      ln [""; string_of_int RF; "millimoles"; "in "; "1"; "steps"];
      ln ["SAVE"; "Solution"; "1"];
      ln ["END"];
      ln ["USE"; "Solution"; "1"];
      NL;
      ln ["REACTION"; "2"];
      ln [""; "H3BO3"; "1"];
      ln [""; "H2O"; format_f 3 H3BO3_H2O];
      ln [""; format_f 8 M7; "millimoles"; "in "; "1"; "steps"];
      NL;
      ln ["SAVE"; "Solution"; "1"];
      ln ["END"];
      ln ["USE"; "Solution"; "1"];
      NL;
      ln ["REACTION"; "2"];
      ln [""; "NaOH"; "1"];
      ln [""; "H2O"; format_f 4 NaOH_H2O];
      ln [""; format_f 8 M8; "millimoles"; "in "; string_of_int n_steps; "steps"];
      NL ] in
  mret (pqi, n_steps).

(** *** Boron speciation ratio *)

(** [a + b] on dictionary values: numbers add, strings concatenate, a
    number and a string do not mix. *)
Definition py_add (a b : value F) : result (value F) :=
  match a, b with
  | VNum x, VNum y => Ok (VNum (x + y))
  | VStr s, VStr t => Ok (VStr (s ++ t))
  | _, _ => Raise TypeError
  end.

(** [row.get(key, 0) or 0]: a missing key, a zero and an empty string all
    become the integer 0. *)
Definition get_or_0 (row : dict) (key : string) : value F :=
  match row !! key with
  | None => VNum (of_int 0)
  | Some (VNum x) => if is_zero x then VNum (of_int 0) else VNum x
  | Some (VStr s) => if String.eqb s "" then VNum (of_int 0) else VStr s
  end.

Definition b4b3_ratio (row : dict) : result F :=
  let L := get_or_0 row "m_B(OH)3(mol/kgw)" in
  let M := get_or_0 row "m_B(OH)4-(mol/kgw)" in
  let N := get_or_0 row "m_B3O3(OH)4-(mol/kgw)" in
  let O := get_or_0 row "m_B4O5(OH)4-2(mol/kgw)" in
  let P := get_or_0 row "m_MgB(OH)4+(mol/kgw)" in
  let Q := get_or_0 row "m_CaB(OH)4+(mol/kgw)" in
  (* num = M + P + Q + N + O + O *)
  n1 ← py_add M P; n2 ← py_add n1 Q; n3 ← py_add n2 N;
  n4 ← py_add n3 O; num ← py_add n4 O;
  (* den = L + N + N + O + O *)
  d1 ← py_add L N; d2 ← py_add d1 N; d3 ← py_add d2 O; den ← py_add d3 O;
  match den with
  | VStr _ => Raise TypeError
  | VNum d =>
      if d >? lit 1e-30 then
        match num with
        | VNum n => div n d
        | VStr _ => Raise TypeError
        end
      else Ok (lit 0.0)
  end.

(** *** Shared payload parser *)

(** Python's parser of numerals, [float(s)] on a string: [None] stands
    for its ValueError. *)
Variable float_of_str : string -> option F.

(** [float(v)]. *)
Definition py_float (v : value F) : result F :=
  match v with
  | VNum x => Ok x
  | VStr s =>
      match float_of_str s with
      | Some x => Ok x
      | None => Raise ValueError
      end
  end.

(** [d[key]]. *)
Definition getitem (d : dict) (key : string) : result (value F) :=
  match d !! key with
  | Some v => Ok v
  | None => Raise (KeyError key)
  end.

(** [float(d[key])]. *)
Definition float_item (d : dict) (key : string) : result F :=
  v ← getitem d key; py_float v.

Definition parse_payload (d : dict) : result (F * ions F * dict) :=
  density ← float_item d "density";
  tds ← float_item d "tds";
  tds_unit ← getitem d "tds_unit";
  wm ← calc_water_mass density tds tds_unit;
  na ← float_item d "Na"; na ← to_mmol_kgw na Q3 wm;
  k ← float_item d "K"; k ← to_mmol_kgw k Q4 wm;
  li ← float_item d "Li"; li ← to_mmol_kgw li Q5 wm;
  mg ← float_item d "Mg"; mg ← to_mmol_kgw mg Q6 wm;
  ca ← float_item d "Ca"; ca ← to_mmol_kgw ca Q7 wm;
  so4 ← float_item d "SO4"; so4 ← to_mmol_kgw so4 Q8 wm;
  let ion := Ions na k li mg ca so4 in
  let hyd : dict :=
    <["Na2SO4" := default (VStr "Anhydrous") (d !! "hyd_Na2SO4")]>
    (<["MgSO4" := default (VStr "Heptahydrate") (d !! "hyd_MgSO4")]>
    (<["CaCl2" := default (VStr "Anhydrous") (d !! "hyd_CaCl2")]>
    (<["MgCl2" := default (VStr "Hexahydrate") (d !! "hyd_MgCl2")]> ∅))) in
  mret (wm, ion, hyd).

(** *** Classification of the solver's rows (lines 539-564) *)

(** One turn of the loop over [rows]; the state is
    [(react_count, titration, naoh_vol)]. *)
Definition classify_row (step_ml : F) (acc : Z * list (point F) * F)
    (row : dict) : result (Z * list (point F) * F) :=
  let '(react_count, titration, naoh_vol) := acc in
  let state : value F := default (VStr "") (row !! "state") in
  let pH : option (value F) := row !! "pH" in
  ratio ← b4b3_ratio row;
  if value_is state "i_soln" then Ok acc
  else if value_is state "react" then
    let react_count := (react_count + 1)%Z in
    if (react_count <=? 2)%Z then Ok (react_count, titration, naoh_vol)
    else
      let naoh_vol := round_to 8 (naoh_vol + step_ml) in
      pH5 ← match pH with
            | None => Ok None
            | Some (VNum x) => Ok (Some (round_to 5 x))
            | Some (VStr _) => Raise TypeError
            end;
      Ok (react_count,
          (titration ++ [Point "react" naoh_vol pH5 (round_to 7 ratio)])%list,
          naoh_vol)
  else Ok acc.

Fixpoint classify_rows (step_ml : F) (acc : Z * list (point F) * F)
    (rows : list dict) : result (Z * list (point F) * F) :=
  match rows with
  | [] => Ok acc
  | row :: rows' =>
      acc' ← classify_row step_ml acc row;
      classify_rows step_ml acc' rows'
  end.

Definition classify (step_ml : F) (rows : list dict) : result (list (point F)) :=
  '(_, titration, _) ← classify_rows step_ml (0%Z, [], lit 0.0) rows;
  mret titration.

(** *** Routes *)

(** The external solver: from the input string to its selected-output
    rows, or a RuntimeError. *)
Variable run_phreeqc : string -> result (list dict).

Definition recipe_route (d : dict) : response (recipe_json F) :=
  respond (
    '(wm, ion, hyd) ← parse_payload d;
    recipe ← build_recipe ion hyd;
    mret (RecipeJson recipe (round_to 6 wm))).

Definition calculate (d : dict) : response (calculate_json F) :=
  respond (
    '(wm, ion, hyd) ← parse_payload d;
    b ← float_item d "B"; b ← to_mmol_kgw b (lit 10.811) wm;
    br ← float_item d "Br"; br ← to_mmol_kgw br (lit 79.904) wm;
    h3bo3_conc ← float_item d "H3BO3_conc";
    h3bo3_vol ← float_item d "H3BO3_vol";
    sample ← float_item d "sample_vol";
    naoh_conc ← float_item d "NaOH_conc";
    naoh_vol ← float_item d "NaOH_vol";
    ph ← py_float (default (VNum (lit 8.5)) (d !! "pH"));
    let p := mk_params h3bo3_conc h3bo3_vol sample naoh_conc naoh_vol ph in
    '(pqi, n_steps) ← build_phreeqc_input ion p wm;
    rows ← run_phreeqc pqi;
    recipe ← build_recipe ion hyd;
    v ← float_item d "NaOH_vol";
    step_ml ← div v (of_int 20);
    titration ← classify step_ml rows;
    mret (CalculateJson titration recipe (round_to 6 wm)
            [ ("Na", round_to 5 (Na ion)); ("K", round_to 5 (K ion));
              ("Li", round_to 5 (Li ion)); ("Mg", round_to 5 (Mg ion));
              ("Ca", round_to 5 (Ca ion)); ("SO4", round_to 5 (SO4 ion));
              ("B", round_to 5 b); ("Br", round_to 5 br) ]
            n_steps)).
End App.

(** * Properties *)

(** ** Facts about binary64 arithmetic

    Derived from the specification of the primitive operations
    ([mul_spec], [ltb_spec], ...). *)

Local Open Scope float_scope.

Lemma digits2_pos_xO_iter (n : nat) (m : positive) :
  Zpos (digits2_pos (Nat.iter n xO m)) = (Zpos (digits2_pos m) + Z.of_nat n)%Z.
Proof.
  induction n as [|n IH]; simpl.
  - lia.
  - rewrite Pos2Z.inj_succ, IH. lia.
Qed.

Lemma digits2_pos_shift52 (m : positive) :
  Zpos (digits2_pos (m * 4503599627370496)) = (Zpos (digits2_pos m) + 52)%Z.
Proof.
  rewrite Pos.mul_comm.
  change (4503599627370496 * m)%positive with (Nat.iter 52 xO m).
  now rewrite digits2_pos_xO_iter.
Qed.

Lemma shr_shift52 (m : positive) :
  SpecFloat.iter_pos shr_1 52 (Build_shr_record (Zpos (m * 4503599627370496)) false false)
  = Build_shr_record (Zpos m) false false.
Proof.
  rewrite Pos.mul_comm. reflexivity.
Qed.

(** Multiplying a valid float by 1 = 2^52 * 2^-52 rounds back to it. *)
Lemma SFmul_one (x : spec_float) :
  valid_binary x = true ->
  SFmul prec emax x (S754_finite false 4503599627370496 (-52)) = x.
Proof.
  destruct x as [s|s| |s m e]; cbn [SFmul SpecFloat.valid_binary]; intros Hv;
    rewrite ?Bool.xorb_false_r; try reflexivity.
  unfold bounded, canonical_mantissa in Hv.
  apply andb_prop in Hv as [Hc He]. apply Z.eqb_eq in Hc.
  unfold binary_round_aux, shr_fexp.
  cbn [Zdigits2]. rewrite digits2_pos_shift52.
  replace (Zpos (digits2_pos m) + 52 + (e + -52))%Z
    with (Zpos (digits2_pos m) + e)%Z by lia.
  rewrite Hc. replace (e - (e + -52))%Z with 52%Z by lia.
  cbn [shr_record_of_loc shr]. rewrite shr_shift52.
  cbn [shr_m loc_of_shr_record round_nearest_even Zdigits2].
  replace (e + -52 + 52)%Z with e by lia.
  rewrite Hc, Z.sub_diag. cbn [shr shr_record_of_loc shr_m].
  now rewrite He.
Qed.

Lemma b64_mul_one (x : float) : x * 1 = x.
Proof.
  apply Prim2SF_inj. rewrite mul_spec.
  change (Prim2SF 1) with (S754_finite false 4503599627370496 (-52)).
  apply SFmul_one, Prim2SF_valid.
Qed.

(** What [0 < x] says about [x]. *)
Lemma b64_pos_cases (x : float) :
  (0 <? x) = true ->
  Prim2SF x = S754_infinity false \/
  exists m e, Prim2SF x = S754_finite false m e.
Proof.
  rewrite FloatAxioms.ltb_spec. change (Prim2SF 0) with (S754_zero false).
  destruct (Prim2SF x) as [s|[|]| |[|] m e]; cbn; try discriminate; eauto.
Qed.

Lemma b64_not_infinity (x : float) :
  (x =? infinity) = false -> Prim2SF x <> S754_infinity false.
Proof.
  rewrite FloatAxioms.eqb_spec. change (Prim2SF infinity) with (S754_infinity false).
  intros Hx E. rewrite E in Hx. discriminate.
Qed.

Lemma b64_pos_finite (x : float) :
  (0 <? x) = true -> (x =? infinity) = false ->
  exists m e, Prim2SF x = S754_finite false m e.
Proof.
  intros Hp Hi. destruct (b64_pos_cases x Hp) as [E|E]; [|exact E].
  now apply b64_not_infinity in Hi.
Qed.

Lemma b64_mul_zero (x : float) (m : positive) (e : Z) :
  Prim2SF x = S754_finite false m e -> x * 0 = 0.
Proof.
  intros E. apply Prim2SF_inj. rewrite mul_spec, E. reflexivity.
Qed.

Lemma b64_pos_nonneg (x : float) : (0 <? x) = true -> (0 <=? x) = true.
Proof.
  rewrite FloatAxioms.ltb_spec, FloatAxioms.leb_spec. unfold SFltb, SFleb.
  now destruct (SFcompare _ _) as [[| |]|].
Qed.

Lemma b64_neg_not_pos (x : float) : (x <? 0) = true -> (0 <? x) = false.
Proof.
  rewrite !FloatAxioms.ltb_spec. change (Prim2SF 0) with (S754_zero false).
  now destruct (Prim2SF x) as [s|[|]| |[|] m e].
Qed.

Lemma b64_zero_not_pos (x : float) : (x =? 0) = true -> (0 <? x) = false.
Proof.
  rewrite FloatAxioms.ltb_spec, FloatAxioms.eqb_spec. change (Prim2SF 0) with (S754_zero false).
  now destruct (Prim2SF x) as [s|[|]| |[|] m e].
Qed.

(** [max(0.0, y)] on binary64. *)
Lemma b64_pymax_0 (y : float) :
  pymax (lit 0.0) y = if 0 <? y then y else 0.
Proof. reflexivity. Qed.

Lemma b64_pymax_0_nonneg (y : float) : (0 <=? pymax (lit 0.0) y) = true.
Proof.
  rewrite b64_pymax_0. destruct (0 <? y) eqn:Hy.
  - now apply b64_pos_nonneg.
  - reflexivity.
Qed.

(** [max(0.0, y) * flag] for a flag in {0, 1}, when [y] is not +infinity. *)
Lemma b64_clamped_times_flag (y : float) (flag : bool) :
  (y =? infinity) = false ->
  pymax (lit 0.0) y * Binary64.of_int (if flag then 1 else 0)
  = if flag then pymax (lit 0.0) y else 0.
Proof.
  intros Hi. rewrite b64_pymax_0.
  destruct flag.
  - change (Binary64.of_int 1) with 1. apply b64_mul_one.
  - change (Binary64.of_int 0) with 0.
    destruct (0 <? y) eqn:Hy; [|reflexivity].
    destruct (b64_pos_finite y Hy Hi) as (m & e & E).
    exact (b64_mul_zero y m e E).
Qed.

(** The two flags as one Boolean: [A18 = 1] iff [SO4 > Mg]. *)
Lemma b64_salts_MgSO4 (ion : ions float) :
  MgSO4 (build_recipe_salts ion)
  = pymax (lit 0.0) (SO4 ion)
    * Binary64.of_int (if negb (SO4 ion >? Mg ion)%py then 1 else 0).
Proof.
  unfold build_recipe_salts; cbn [MgSO4].
  now destruct (SO4 ion >? Mg ion)%py.
Qed.

Lemma b64_salts_Na2SO4 (ion : ions float) :
  Na2SO4 (build_recipe_salts ion)
  = pymax (lit 0.0) (SO4 ion)
    * Binary64.of_int (if (SO4 ion >? Mg ion)%py then 1 else 0).
Proof.
  unfold build_recipe_salts; cbn [Na2SO4].
  now destruct (SO4 ion >? Mg ion)%py.
Qed.

(** Divisions by the constants of the source never raise. *)
Lemma b64_div_1000 (x : float) : div x (of_int 1000) = Ok (x / 1000).
Proof. reflexivity. Qed.

Lemma b64_div_Q10 (x : float) : div x Q10 = Ok (x / Q10).
Proof. reflexivity. Qed.

(** The recipe builder raises nothing once its two constant divisors, 1000
    and the molar mass of water, are known to be non-zero. *)
Lemma build_recipe_total {F : Type} `{PyNumber F}
    (ion : ions F) (hyd : gmap string (value F)) :
  is_zero (of_int 1000) = false -> is_zero Q10 = false ->
  exists recipe, build_recipe ion hyd = Ok recipe.
Proof.
  intros H1000 HQ10. unfold build_recipe, div.
  rewrite H1000, HQ10. cbn [mbind result_bind]. eauto.
Qed.

Lemma b64_build_recipe_total (ion : ions float) (hyd : gmap string (value float)) :
  exists recipe, build_recipe ion hyd = Ok recipe.
Proof. apply build_recipe_total; reflexivity. Qed.

(** ** Facts about exact arithmetic *)

Local Open Scope Q_scope.

Ltac exact_ops :=
  cbv [pymax gt mul sub add quot of_int lit is_zero Exact.number inject_Z] in *.

Lemma exact_div_1000 (x : Q) : div x (of_int 1000) = Ok (x / 1000).
Proof. reflexivity. Qed.

Lemma exact_div_Q10 (x : Q) : div x Q10 = Ok (x / Q10).
Proof. reflexivity. Qed.

Lemma exact_build_recipe_total (ion : ions Q) (hyd : gmap string (value Q)) :
  exists recipe, build_recipe ion hyd = Ok recipe.
Proof. apply build_recipe_total; reflexivity. Qed.

Lemma exact_pymax_0_nonneg (y : Q) : 0 <= pymax (lit 0.0) y.
Proof. exact_ops. destruct (Qlt_le_dec 0.0 y); lra. Qed.

Lemma exact_salts_exclusive (ion : ions Q) :
  let s := build_recipe_salts ion in
  (0 < SO4 ion ->
     (~ Mg ion < SO4 ion -> 0 < MgSO4 s /\ Na2SO4 s == 0) /\
     (Mg ion < SO4 ion -> 0 < Na2SO4 s /\ MgSO4 s == 0)) /\
  (SO4 ion == 0 -> MgSO4 s == 0 /\ Na2SO4 s == 0).
Proof.
  destruct ion as [na k li mg ca so4].
  cbv [build_recipe_salts MgSO4 Na2SO4 SO4 Mg]. exact_ops.
  destruct (Qlt_le_dec mg so4); cbn [Z.eqb Pos.eqb];
    destruct (Qlt_le_dec 0.0 so4); exact_ops;
    repeat split; intros; lra.
Qed.

Lemma exact_salts_nonneg (ion : ions Q) :
  let s := build_recipe_salts ion in
  0 <= MgCl2 s /\ 0 <= CaCl2 s /\ 0 <= LiCl s /\ 0 <= MgSO4 s /\
  0 <= NaCl s /\ 0 <= KCl s /\ 0 <= Na2SO4 s.
Proof.
  destruct ion as [na k li mg ca so4].
  cbv [build_recipe_salts MgCl2 CaCl2 LiCl MgSO4 NaCl KCl Na2SO4
       Na K Li Mg Ca SO4].
  repeat split; try apply exact_pymax_0_nonneg;
    destruct (so4 >? mg)%py; cbn [Z.eqb Pos.eqb];
    pose proof (exact_pymax_0_nonneg so4) as Hp;
    set (p := pymax (lit 0.0) so4) in *; clearbody p;
    cbv [mul of_int Exact.number inject_Z]; lra.
Qed.

Lemma exact_NaCl_clamped (ion : ions Q) :
  Mg ion < SO4 ion -> Na ion - 2 * SO4 ion < 0 ->
  NaCl (build_recipe_salts ion) == 0.
Proof.
  destruct ion as [na k li mg ca so4].
  cbv [build_recipe_salts NaCl SO4 Mg Na]. exact_ops. intros Hp Hn.
  destruct (Qlt_le_dec mg so4); [|lra]. cbn [Z.eqb Pos.eqb]. exact_ops.
  destruct (Qlt_le_dec 0.0 _); lra.
Qed.

(** ** Binary64: the sulfate salts *)

Local Open Scope float_scope.

Lemma b64_salts_exclusive (ion : ions float) :
  (SO4 ion =? infinity) = false ->
  let s := build_recipe_salts ion in
  ((0 <? SO4 ion) = true ->
     ((SO4 ion >? Mg ion)%py = false ->
        (0 <? MgSO4 s) = true /\ Na2SO4 s = 0) /\
     ((SO4 ion >? Mg ion)%py = true ->
        (0 <? Na2SO4 s) = true /\ MgSO4 s = 0)) /\
  ((SO4 ion =? 0) = true -> MgSO4 s = 0 /\ Na2SO4 s = 0).
Proof.
  intros Hi s. subst s.
  rewrite b64_salts_MgSO4, b64_salts_Na2SO4, !b64_clamped_times_flag by assumption.
  rewrite b64_pymax_0. split.
  - intros Hp. rewrite Hp.
    split; intros Hg; rewrite Hg; cbn [negb]; auto.
  - intros Hz. rewrite (b64_zero_not_pos _ Hz).
    now destruct (SO4 ion >? Mg ion)%py.
Qed.

Lemma b64_salts_nonneg (ion : ions float) :
  (SO4 ion =? infinity) = false ->
  let s := build_recipe_salts ion in
  (0 <=? MgCl2 s) = true /\ (0 <=? CaCl2 s) = true /\ (0 <=? LiCl s) = true /\
  (0 <=? MgSO4 s) = true /\ (0 <=? NaCl s) = true /\ (0 <=? KCl s) = true /\
  (0 <=? Na2SO4 s) = true.
Proof.
  intros Hi s. subst s.
  rewrite b64_salts_MgSO4, b64_salts_Na2SO4, !b64_clamped_times_flag by assumption.
  unfold build_recipe_salts; cbn [MgCl2 CaCl2 LiCl NaCl KCl].
  repeat split; try apply b64_pymax_0_nonneg;
    destruct (SO4 ion >? Mg ion)%py; cbn [negb];
    first [apply b64_pymax_0_nonneg | reflexivity].
Qed.

Lemma b64_NaCl_clamped (ion : ions float) :
  (SO4 ion >? Mg ion)%py = true ->
  (Na ion - 2 * SO4 ion * 1 <? 0) = true ->
  NaCl (build_recipe_salts ion) = 0.
Proof.
  intros Hg Hn. unfold build_recipe_salts; cbn [NaCl]. rewrite Hg.
  cbn [Z.eqb Pos.eqb]. rewrite b64_pymax_0.
  change (Na ion - of_int 2 * SO4 ion * of_int 1)%py
    with (Na ion - 2 * SO4 ion * 1).
  now rewrite (b64_neg_not_pos _ Hn).
Qed.

(** ** The claims *)

(** C9. The salt molalities recomputed inside the script generator (flags
    A18/A15 and the max(0, .) clamps, lines 227-236) are equal, value for
    value, to those computed by the recipe builder (lines 130-141), for
    every ion-molality input and at every carrier of the arithmetic. *)
Theorem C9_script_salts_equal_recipe_salts :
  forall (F : Type) (N : PyNumber F) (ion_mmol_kgw : ions F),
    build_phreeqc_input_salts ion_mmol_kgw = build_recipe_salts ion_mmol_kgw.
Proof. reflexivity. Qed.

(** C1 (as stated). With SO4 = +infinity and Mg = 1 the Na2SO4 path is
    taken and Na2SO4 is strictly positive, but MgSO4 = inf * 0 is NaN, not
    0. *)
Lemma C1_infinite_sulfate_counterexample :
  let ion := Ions 0 0 0 1 0 infinity in
  let s := build_recipe_salts ion in
  (0 <? SO4 ion) = true /\ (SO4 ion >? Mg ion)%py = true /\
  (0 <? Na2SO4 s) = true /\ (MgSO4 s =? 0) = false /\ is_nan (MgSO4 s) = true.
Proof. vm_compute. repeat split. Qed.

(** C1 (amended). Salt-path exclusivity: when SO4 > 0 exactly one of MgSO4
    and Na2SO4 is strictly positive and the other is exactly 0 (MgSO4 when
    SO4 is not greater than Mg, Na2SO4 when SO4 > Mg), and when SO4 = 0 both
    are 0; for every input in exact arithmetic, and in binary64 for every
    input whose SO4 is not +infinity. *)
Theorem C1_salt_path_exclusivity :
  (forall ion : ions Q,
     let s := build_recipe_salts ion in
     ((0 < SO4 ion)%Q ->
        (~ (Mg ion < SO4 ion)%Q -> (0 < MgSO4 s)%Q /\ (Na2SO4 s == 0)%Q) /\
        ((Mg ion < SO4 ion)%Q -> (0 < Na2SO4 s)%Q /\ (MgSO4 s == 0)%Q)) /\
     ((SO4 ion == 0)%Q -> (MgSO4 s == 0)%Q /\ (Na2SO4 s == 0)%Q)) /\
  (forall ion : ions float,
     (SO4 ion =? infinity) = false ->
     let s := build_recipe_salts ion in
     ((0 <? SO4 ion) = true ->
        ((SO4 ion >? Mg ion)%py = false ->
           (0 <? MgSO4 s) = true /\ Na2SO4 s = 0) /\
        ((SO4 ion >? Mg ion)%py = true ->
           (0 <? Na2SO4 s) = true /\ MgSO4 s = 0)) /\
     ((SO4 ion =? 0) = true -> MgSO4 s = 0 /\ Na2SO4 s = 0)).
Proof.
  split.
  - exact exact_salts_exclusive.
  - exact b64_salts_exclusive.
Qed.

(** The molalities of the end-to-end scenario (SO4 > Mg: Na2SO4 path). *)
Definition scenario_ions : ions float :=
  Ions 91.57391524441752 134.61347155085625 75.827083917833789
       0.86618521205296728 6.5661433888128675 1.64370952365298.

Lemma C1_salt_path_exclusivity_witness :
  (0 <? Na2SO4 (build_recipe_salts scenario_ions)) = true /\
  MgSO4 (build_recipe_salts scenario_ions) = 0.
Proof.
  exact (proj2 (proj1 (proj2 C1_salt_path_exclusivity scenario_ions eq_refl)
                  eq_refl) eq_refl).
Defined.

(** C8 (as stated). With SO4 = +infinity the MgSO4 molality is NaN, which
    is not non-negative. *)
Lemma C8_infinite_sulfate_counterexample :
  (0 <=? MgSO4 (build_recipe_salts (Ions 0 0 0 1 0 infinity))) = false.
Proof. vm_compute. reflexivity. Qed.

(** C8 (amended). Each of the seven salt molalities is non-negative (floored
    at 0), NaCl is clamped at 0 whenever the raw subtraction Na - 2*SO4 on
    the Na2SO4 path is negative, and the recipe builder raises no error; for
    every input in exact arithmetic, and in binary64 for every input whose
    SO4 is not +infinity. *)
Theorem C8_salt_molalities_nonnegative :
  (forall (ion : ions Q) (hyd : gmap string (value Q)),
     let s := build_recipe_salts ion in
     ((0 <= MgCl2 s)%Q /\ (0 <= CaCl2 s)%Q /\ (0 <= LiCl s)%Q /\
      (0 <= MgSO4 s)%Q /\ (0 <= NaCl s)%Q /\ (0 <= KCl s)%Q /\
      (0 <= Na2SO4 s)%Q) /\
     ((Mg ion < SO4 ion)%Q -> (Na ion - 2 * SO4 ion < 0)%Q ->
      (NaCl s == 0)%Q) /\
     (exists recipe, build_recipe ion hyd = Ok recipe)) /\
  (forall (ion : ions float) (hyd : gmap string (value float)),
     (SO4 ion =? infinity) = false ->
     let s := build_recipe_salts ion in
     ((0 <=? MgCl2 s) = true /\ (0 <=? CaCl2 s) = true /\
      (0 <=? LiCl s) = true /\ (0 <=? MgSO4 s) = true /\
      (0 <=? NaCl s) = true /\ (0 <=? KCl s) = true /\
      (0 <=? Na2SO4 s) = true) /\
     ((SO4 ion >? Mg ion)%py = true ->
      (Na ion - 2 * SO4 ion * 1 <? 0) = true -> NaCl s = 0) /\
     (exists recipe, build_recipe ion hyd = Ok recipe)).
Proof.
  split.
  - intros ion hyd s. split; [|split].
    + exact (exact_salts_nonneg ion).
    + exact (exact_NaCl_clamped ion).
    + exact (exact_build_recipe_total ion hyd).
  - intros ion hyd Hi s. split; [|split].
    + exact (b64_salts_nonneg ion Hi).
    + exact (b64_NaCl_clamped ion).
    + exact (b64_build_recipe_total ion hyd).
Qed.

(** Sodium too scarce for the sulfate: Na = 1, SO4 = 5 > Mg = 2. *)
Lemma C8_salt_molalities_nonnegative_witness :
  NaCl (build_recipe_salts (Ions 1 0 0 2 0 5)) = 0.
Proof.
  exact (proj1 (proj2 (proj2 C8_salt_molalities_nonnegative
                         (Ions 1 0 0 2 0 5) ∅ eq_refl)) eq_refl eq_refl).
Defined.

(** ** Water mass and molar masses *)

(** A division whose divisor is known to be non-zero returns. *)
Lemma div_nonzero {F : Type} `{PyNumber F} (a b : F) :
  is_zero b = false -> div a b = Ok (quot a b).
Proof. intros Hb. unfold div. now rewrite Hb. Qed.

Lemma calc_water_mass_returns {F : Type} `{PyNumber F}
    (density tds : F) (tds_unit : value F) :
  is_zero (of_int 1000) = false ->
  calc_water_mass density tds tds_unit =
  Ok (if value_is tds_unit "g/L"
      then quot (of_int 1000 * density - tds)%py (of_int 1000)
      else quot (of_int 1000 * density - tds * density)%py (of_int 1000)).
Proof.
  intros Hz. unfold calc_water_mass.
  destruct (value_is tds_unit "g/L"); now apply div_nonzero.
Qed.

(** [x] lies within [tol] of the exact number [q]. *)
Definition within (x : float) (q tol : Q) : bool :=
  Qle_bool (Qabs (Binary64.to_Q x - q)) tol.

(** C2. For every density and tds the water-mass function returns
    (1000*density - tds)/1000 when tds_unit equals "g/L" and
    (1000*density - tds*density)/1000 for any other tds_unit, never raising
    and with no bounds check: density 1 with tds 2000 g/L gives -1. *)
Theorem C2_water_mass_formula :
  (forall (density tds : float) (tds_unit : value float),
     calc_water_mass density tds tds_unit =
     Ok (if value_is tds_unit "g/L"
         then (1000 * density - tds) / 1000
         else (1000 * density - tds * density) / 1000)) /\
  (forall (density tds : Q) (tds_unit : value Q),
     calc_water_mass density tds tds_unit =
     Ok (if value_is tds_unit "g/L"
         then ((1000 * density - tds) / 1000)%Q
         else ((1000 * density - tds * density) / 1000)%Q)) /\
  calc_water_mass 1 2000 (VStr "g/L") = Ok (-1).
Proof.
  split; [|split].
  - intros. exact (calc_water_mass_returns density tds tds_unit eq_refl).
  - intros. exact (calc_water_mass_returns density tds tds_unit eq_refl).
  - reflexivity.
Qed.

(** C3 (as stated). With density 1.3, tds 350 and tds_unit "g/L" the water
    mass is the float 0.95, which is not within 0.00005 (nor within 0.25) of
    1.25; the other branch gives 0.845. *)
Lemma C3_water_mass_not_1_25_counterexample :
  calc_water_mass (lit 1.3) (lit 350) (VStr "g/L") = Ok 0.95 /\
  within 0.95 1.25 0.00005 = false /\ within 0.95 1.25 0.25 = false /\
  calc_water_mass (lit 1.3) (lit 350) (VStr "g/kgs") = Ok 0.845.
Proof. vm_compute. repeat split. Qed.

(** C3 (amended). With density 1.3, tds 350 and tds_unit "g/L" the computed
    water mass is approximately 0.9500 kgw/L: the float nearest to 0.95,
    printed 0.9500, and exactly 19/20 in exact arithmetic. *)
Theorem C3_water_mass_scenario :
  (exists wm : float,
     calc_water_mass (lit 1.3) (lit 350) (VStr "g/L") = Ok wm /\
     within wm 0.95 0.00005 = true /\
     format_f 4 wm = "0.9500" /\ round_to 6 wm = 0.95) /\
  (exists wm : Q,
     calc_water_mass (lit 1.3) (lit 350) (VStr "g/L") = Ok wm /\
     (wm == 19 # 20)%Q).
Proof.
  split.
  - exists 0.95. vm_compute. repeat split.
  - eexists. split; [reflexivity|]. vm_compute. reflexivity.
Qed.

(** The hydration choices sent by the form for the hydrated salts. *)
Definition hydrated : gmap string (value float) :=
  <["Na2SO4" := VStr "Decahydrate"]>
  (<["MgSO4" := VStr "Heptahydrate"]>
  (<["CaCl2" := VStr "Dihydrate"]>
  (<["MgCl2" := VStr "Hexahydrate"]> ∅))).

(** C4 (as stated). The molar mass used for Na2SO4 decahydrate is the
    constant 322.2, which is further than 0.001 from
    142.04 + 10 * 18.01528 = 322.1928. *)
Lemma C4_decahydrate_constant_counterexample :
  D18 hydrated = J13 /\
  within J13 (142.04 + 10 * 18.01528) 0.001 = false.
Proof. vm_compute. repeat split. Qed.

(** C4 (amended). For MgCl2, CaCl2 and MgSO4 the molar mass used for the
    hydrated form is the anhydrous molar mass plus hydration-number times
    18.01528, within 0.001 (MgCl2.6H2O is within 0.001 of 203.302 and
    CaCl2.2H2O of 147.015); for Na2SO4 the hydrated form uses the constant
    322.2, which is 0.0072 above 142.04 + 10 * 18.01528. *)
Theorem C4_hydrated_molar_masses :
  (forall hydration : gmap string (value float),
     D12 hydration = (if is_anhydrous hydration "MgCl2" then J3 else J4) /\
     D13 hydration = (if is_anhydrous hydration "CaCl2" then J6 else J7) /\
     D15 hydration = (if is_anhydrous hydration "MgSO4" then J9 else J10) /\
     D18 hydration = (if is_anhydrous hydration "Na2SO4" then J12 else J13)) /\
  (within J4 (95.211 + 6 * 18.01528) 0.001 = true /\
   within J4 203.302 0.001 = true /\
   within J7 (110.984 + 2 * 18.01528) 0.001 = true /\
   within J7 147.015 0.001 = true /\
   within J10 (120.366 + 7 * 18.01528) 0.001 = true /\
   within J13 322.2 0.000000001 = true /\
   within J13 (142.04 + 10 * 18.01528) 0.01 = true) /\
  ((J4 == 95.211 + 6 * 18.01528)%Q /\ (J7 == 110.984 + 2 * 18.01528)%Q /\
   (J10 == 120.366 + 7 * 18.01528)%Q /\
   (J13 - (142.04 + 10 * 18.01528) == 0.0072)%Q).
Proof.
  split; [|split].
  - intros. repeat split.
  - vm_compute. repeat split.
  - vm_compute. repeat split.
Qed.

(** ** Boron speciation ratio *)

(** The six molality columns read by [b4b3_ratio], in the order L, M, N, O,
    P, Q of the source. *)
Definition boron_keys : list string :=
  [ "m_B(OH)3(mol/kgw)"; "m_B(OH)4-(mol/kgw)"; "m_B3O3(OH)4-(mol/kgw)";
    "m_B4O5(OH)4-2(mol/kgw)"; "m_MgB(OH)4+(mol/kgw)"; "m_CaB(OH)4+(mol/kgw)" ].

(** The column [key] of [row] is absent or holds a number. *)
Definition numeric_at {F : Type} (row : gmap string (value F)) (key : string) : bool :=
  match row !! key with
  | Some (VStr _) => false
  | _ => true
  end.

(** A row as the solver gives it: its six molality columns are numbers. *)
Definition numeric_row {F : Type} (row : gmap string (value F)) : bool :=
  forallb (numeric_at row) boron_keys.

(** The number [row.get(key, 0) or 0] evaluates to in a numeric column. *)
Definition operand {F : Type} `{PyNumber F} (row : gmap string (value F))
    (key : string) : F :=
  match get_or_0 row key with
  | VNum x => x
  | VStr _ => of_int 0
  end.

(** The molality the column holds, a missing column counting as 0. *)
Definition molality {F : Type} `{PyNumber F} (row : gmap string (value F))
    (key : string) : F :=
  match row !! key with
  | Some (VNum x) => x
  | _ => of_int 0
  end.

Lemma get_or_0_numeric {F : Type} `{PyNumber F}
    (row : gmap string (value F)) (key : string) :
  numeric_at row key = true -> get_or_0 row key = VNum (operand row key).
Proof.
  unfold numeric_at, operand, get_or_0.
  destruct (row !! key) as [[x|s]|]; try discriminate; intros _;
    [destruct (is_zero x)|]; reflexivity.
Qed.

(** On a numeric row the ratio is the guarded quotient of the two sums, taken
    in the order the source adds them. *)
Lemma b4b3_ratio_numeric {F : Type} `{PyNumber F} (row : gmap string (value F)) :
  numeric_row row = true ->
  b4b3_ratio row =
  let L := operand row "m_B(OH)3(mol/kgw)" in
  let M := operand row "m_B(OH)4-(mol/kgw)" in
  let N := operand row "m_B3O3(OH)4-(mol/kgw)" in
  let O := operand row "m_B4O5(OH)4-2(mol/kgw)" in
  let P := operand row "m_MgB(OH)4+(mol/kgw)" in
  let Q := operand row "m_CaB(OH)4+(mol/kgw)" in
  let num := (M + P + Q + N + O + O)%py in
  let den := (L + N + N + O + O)%py in
  if (den >? lit 1e-30)%py then div num den else Ok (lit 0.0).
Proof.
  unfold numeric_row, boron_keys. cbn [forallb]. rewrite !andb_true_iff.
  intros (HL & HM & HN & HO & HP & HQ & _).
  unfold b4b3_ratio.
  rewrite (get_or_0_numeric _ _ HL), (get_or_0_numeric _ _ HM),
    (get_or_0_numeric _ _ HN), (get_or_0_numeric _ _ HO),
    (get_or_0_numeric _ _ HP), (get_or_0_numeric _ _ HQ).
  reflexivity.
Qed.

Lemma exact_operand (row : gmap string (value Q)) (key : string) :
  (operand row key == molality row key)%Q.
Proof.
  unfold operand, molality, get_or_0.
  destruct (row !! key) as [[x|s]|]; try reflexivity.
  - cbn [is_zero Exact.number]. destruct (Qeq_bool x 0) eqn:E; [|reflexivity].
    apply Qeq_bool_eq in E. now rewrite E.
  - now destruct (String.eqb s "").
Qed.

Lemma b64_gt_tiny_nonzero (d : float) :
  (1e-30 <? d) = true -> (d =? 0) = false.
Proof.
  rewrite FloatAxioms.ltb_spec, FloatAxioms.eqb_spec.
  change (Prim2SF 0) with (S754_zero false).
  set (t := Prim2SF 1e-30). vm_compute in t. subst t.
  now destruct (Prim2SF d) as [s|[|]| |[|] m e].
Qed.

(** A row with B(OH)3 = 1 and B(OH)4- = 1, the other species absent. *)
Definition row_one_one : gmap string (value float) :=
  <["m_B(OH)3(mol/kgw)" := VNum 1]> (<["m_B(OH)4-(mol/kgw)" := VNum 1]> ∅).

(** The same row with the other four species present and 0. *)
Definition row_one_one_zeros : gmap string (value float) :=
  <["m_B3O3(OH)4-(mol/kgw)" := VNum 0]>
  (<["m_B4O5(OH)4-2(mol/kgw)" := VNum 0]>
  (<["m_MgB(OH)4+(mol/kgw)" := VNum 0]>
  (<["m_CaB(OH)4+(mol/kgw)" := VNum 0]> row_one_one))).

(** A pre-reaction row: all six species present and 0. *)
Definition row_all_zero : gmap string (value float) :=
  <["m_B(OH)3(mol/kgw)" := VNum 0]>
  (<["m_B(OH)4-(mol/kgw)" := VNum 0]>
  (<["m_B3O3(OH)4-(mol/kgw)" := VNum 0]>
  (<["m_B4O5(OH)4-2(mol/kgw)" := VNum 0]>
  (<["m_MgB(OH)4+(mol/kgw)" := VNum 0]>
  (<["m_CaB(OH)4+(mol/kgw)" := VNum 0]> ∅))))).

(** C5. For every row whose boron columns are numbers or absent, the ratio
    is (B(OH)4- + MgB(OH)4+ + CaB(OH)4+ + B3O3(OH)4- + 2 B4O5(OH)4-2) divided
    by (B(OH)3 + 2 B3O3(OH)4- + 2 B4O5(OH)4-2) when the denominator exceeds
    1e-30 and 0 otherwise, absent columns counting as 0 (exact arithmetic);
    in binary64 it is that guarded quotient with the sums added in the
    source's order and it never raises; B(OH)3 = B(OH)4- = 1 with the rest 0
    or absent gives 1.0, all-zero and empty rows give 0.0. *)
Theorem C5_boron_ratio :
  (forall row : gmap string (value Q),
     numeric_row row = true ->
     exists v : Q,
       b4b3_ratio row = Ok v /\
       let L := molality row "m_B(OH)3(mol/kgw)" in
       let M := molality row "m_B(OH)4-(mol/kgw)" in
       let N := molality row "m_B3O3(OH)4-(mol/kgw)" in
       let O := molality row "m_B4O5(OH)4-2(mol/kgw)" in
       let P := molality row "m_MgB(OH)4+(mol/kgw)" in
       let Q := molality row "m_CaB(OH)4+(mol/kgw)" in
       let num := (M + P + Q + N + 2 * O)%Q in
       let den := (L + 2 * N + 2 * O)%Q in
       ((1e-30 < den)%Q -> (v == num / den)%Q) /\
       ((den <= 1e-30)%Q -> (v == 0)%Q)) /\
  (forall row : gmap string (value float),
     numeric_row row = true ->
     let L := operand row "m_B(OH)3(mol/kgw)" in
     let M := operand row "m_B(OH)4-(mol/kgw)" in
     let N := operand row "m_B3O3(OH)4-(mol/kgw)" in
     let O := operand row "m_B4O5(OH)4-2(mol/kgw)" in
     let P := operand row "m_MgB(OH)4+(mol/kgw)" in
     let Q := operand row "m_CaB(OH)4+(mol/kgw)" in
     let num := M + P + Q + N + O + O in
     let den := L + N + N + O + O in
     b4b3_ratio row = Ok (if 1e-30 <? den then num / den else 0)) /\
  (b4b3_ratio row_one_one = Ok 1 /\ b4b3_ratio row_one_one_zeros = Ok 1 /\
   b4b3_ratio row_all_zero = Ok 0 /\
   b4b3_ratio (∅ : gmap string (value float)) = Ok 0).
Proof.
  split; [|split].
  - intros row Hrow. rewrite (b4b3_ratio_numeric row Hrow). cbv zeta.
    pose proof (exact_operand row "m_B(OH)3(mol/kgw)") as HL.
    pose proof (exact_operand row "m_B(OH)4-(mol/kgw)") as HM.
    pose proof (exact_operand row "m_B3O3(OH)4-(mol/kgw)") as HN.
    pose proof (exact_operand row "m_B4O5(OH)4-2(mol/kgw)") as HO.
    pose proof (exact_operand row "m_MgB(OH)4+(mol/kgw)") as HP.
    pose proof (exact_operand row "m_CaB(OH)4+(mol/kgw)") as HQ.
    set (oL := operand row "m_B(OH)3(mol/kgw)") in *.
    set (oM := operand row "m_B(OH)4-(mol/kgw)") in *.
    set (oN := operand row "m_B3O3(OH)4-(mol/kgw)") in *.
    set (oO := operand row "m_B4O5(OH)4-2(mol/kgw)") in *.
    set (oP := operand row "m_MgB(OH)4+(mol/kgw)") in *.
    set (oQ := operand row "m_CaB(OH)4+(mol/kgw)") in *.
    set (L := molality row "m_B(OH)3(mol/kgw)") in *.
    set (M := molality row "m_B(OH)4-(mol/kgw)") in *.
    set (N := molality row "m_B3O3(OH)4-(mol/kgw)") in *.
    set (O := molality row "m_B4O5(OH)4-2(mol/kgw)") in *.
    set (P := molality row "m_MgB(OH)4+(mol/kgw)") in *.
    set (Q := molality row "m_CaB(OH)4+(mol/kgw)") in *.
    clearbody oL oM oN oO oP oQ L M N O P Q.
    assert (Hnum : (oM + oP + oQ + oN + oO + oO == M + P + Q + N + 2 * O)%Q)
      by (rewrite HM, HP, HQ, HN, HO; ring).
    assert (Hden : (oL + oN + oN + oO + oO == L + 2 * N + 2 * O)%Q)
      by (rewrite HL, HN, HO; ring).
    assert (Htiny : (0 < 1e-30)%Q) by reflexivity.
    cbv [gt add lit Exact.number].
    destruct (Qlt_le_dec 1e-30 (oL + oN + oN + oO + oO)) as [Hgt|Hle].
    + rewrite div_nonzero.
      * eexists; split; [reflexivity|]. split.
        -- intros _. cbv [quot Exact.number]. now rewrite Hnum, Hden.
        -- intros Hc. rewrite Hden in Hgt. exfalso.
           exact (Qlt_irrefl _ (Qlt_le_trans _ _ _ Hgt Hc)).
      * cbv [is_zero Exact.number].
        destruct (Qeq_bool _ 0) eqn:E; [|reflexivity].
        apply Qeq_bool_eq in E. rewrite E in Hgt. exfalso.
        exact (Qlt_irrefl _ (Qlt_trans _ _ _ Htiny Hgt)).
    + eexists; split; [reflexivity|]. split.
      * intros Hc. rewrite Hden in Hle. exfalso.
        exact (Qlt_irrefl _ (Qlt_le_trans _ _ _ Hc Hle)).
      * intros _. reflexivity.
  - intros row Hrow. rewrite (b4b3_ratio_numeric row Hrow). cbv zeta.
    cbv [add gt lit Binary64.number].
    change (Binary64.lit 1e-30) with 1e-30.
    match goal with
    | |- (if 1e-30 <? ?d then _ else _) = _ => destruct (1e-30 <? d) eqn:Hd
    end.
    + rewrite div_nonzero by exact (b64_gt_tiny_nonzero _ Hd). reflexivity.
    + reflexivity.
  - vm_compute. repeat split.
Qed.

(** ** Classification of the solver's rows *)

(** [row.get('state', '') == s]. *)
Definition state_is {F : Type} (row : gmap string (value F)) (s : string) : bool :=
  value_is (default (VStr "") (row !! "state")) s.

(** The value of the ratio on a row where it is defined. *)
Definition ratio_of {F : Type} `{PyNumber F} (row : gmap string (value F)) : F :=
  match b4b3_ratio row with
  | Ok x => x
  | Raise _ => lit 0.0
  end.

(** [round(pH, 5) if pH is not None else None] on a numeric or absent pH. *)
Definition pH5_of {F : Type} `{PyNumber F} (row : gmap string (value F)) : option F :=
  match row !! "pH" with
  | Some (VNum x) => Some (round_to 5 x)
  | _ => None
  end.

(** A row on which the loop body raises nothing: its ratio is defined and
    its pH, when present, is a number. *)
Definition row_ok {F : Type} `{PyNumber F} (row : gmap string (value F)) : bool :=
  match b4b3_ratio row with
  | Ok _ => true
  | Raise _ => false
  end &&
  match row !! "pH" with
  | Some (VStr _) => false
  | _ => true
  end.


(** The titration points of the retained rows [rows], from volume [v]. *)
Fixpoint points {F : Type} `{PyNumber F} (step_ml v : F)
    (rows : list (gmap string (value F))) : list (point F) :=
  match rows with
  | [] => []
  | row :: rows' =>
      let v' := round_to 8 (v + step_ml)%py in
      Point "react" v' (pH5_of row) (round_to 7 (ratio_of row))
        :: points step_ml v' rows'
  end.



Lemma state_react_not_initial {F : Type} (row : gmap string (value F)) :
  state_is row "react" = true -> state_is row "i_soln" = false.
Proof.
  unfold state_is, value_is.
  destruct (default (VStr "") (row !! "state")) as [x|s]; [discriminate|].
  intros E. apply String.eqb_eq in E. now subst s.
Qed.

Lemma row_ok_ratio {F : Type} `{PyNumber F} (row : gmap string (value F)) :
  row_ok row = true -> b4b3_ratio row = Ok (ratio_of row).
Proof.
  unfold row_ok, ratio_of. now destruct (b4b3_ratio row).
Qed.


Lemma classify_row_react {F : Type} `{PyNumber F} (step_ml : F)
    (c : Z) (t : list (point F)) (v : F) (row : gmap string (value F)) :
  state_is row "react" = true -> row_ok row = true ->
  classify_row step_ml (c, t, v) row =
  Ok (if (c + 1 <=? 2)%Z then (c + 1, t, v)%Z
      else ((c + 1)%Z, (t ++ points step_ml v [row])%list,
            round_to 8 (v + step_ml)%py)).
Proof.
  intros Hs Hok. unfold classify_row.
  rewrite (row_ok_ratio row Hok). cbn [mbind result_bind].
  fold (state_is row "i_soln"). fold (state_is row "react").
  rewrite (state_react_not_initial row Hs), Hs.
  destruct (c + 1 <=? 2)%Z; [reflexivity|].
  unfold row_ok in Hok. apply andb_prop in Hok as [_ HpH].
  cbn [points]. unfold pH5_of.
  destruct (row !! "pH") as [[x|s]|]; try discriminate; reflexivity.
Qed.





(** ** Rounding to 8 decimals in exact arithmetic *)

Local Open Scope Q_scope.




Local Open Scope float_scope.

(** A solver row: its state, pH and the two main boron species. *)
Definition solver_row (st : string) (ph b3 b4 : float) : gmap string (value float) :=
  <["state" := VStr st]> (<["pH" := VNum ph]>
  (<["m_B(OH)3(mol/kgw)" := VNum b3]> (<["m_B(OH)4-(mol/kgw)" := VNum b4]> ∅))).

(** The k-th base step of a made-up titration. *)
Definition titration_row (k : Z) : gmap string (value float) :=
  solver_row "react" (6 + 0.25 * Binary64.of_int k) 0.03 (0.001 * Binary64.of_int k).

Definition base_rows : list (gmap string (value float)) :=
  map titration_row (map Z.of_nat (seq 1 20)).

(** A solver output of the expected shape: the initial solution, the salt
    and acid reactions, then twenty base steps. *)
Definition solver_output : list (gmap string (value float)) :=
  solver_row "i_soln" 7 0 0 :: solver_row "react" 6.9 0 0
    :: solver_row "react" 5.1 0.03 0.00001 :: base_rows.




(** A row in exact arithmetic: B(OH)3 = 1/2, B(OH)4- = 1/4. *)
Definition row_exact : gmap string (value Q) :=
  <["m_B(OH)3(mol/kgw)" := VNum (1 # 2)%Q]>
  (<["m_B(OH)4-(mol/kgw)" := VNum (1 # 4)%Q]> ∅).

(** C5: the theorem at a binary64 row and at an exact row. *)
Lemma C5_boron_ratio_witness :
  b4b3_ratio row_one_one = Ok 1 /\
  exists v : Q, b4b3_ratio row_exact = Ok v.
Proof.
  split.
  - exact (proj1 (proj2 C5_boron_ratio) row_one_one eq_refl).
  - destruct (proj1 C5_boron_ratio row_exact eq_refl) as (v & Hv & _).
    exists v. exact Hv.
Defined.

(** ** The calculate route and its payload *)

(** The default payload of the preview routes: every required field, no B
    and no Br. *)
Definition payload_scenario : gmap string (value float) :=
  list_to_map
    [ ("Na", VNum 2000); ("K", VNum 5000); ("Li", VNum 500); ("Mg", VNum 20);
      ("Ca", VNum 250); ("SO4", VNum 50); ("density", VNum (lit 1.3));
      ("tds", VNum 350); ("tds_unit", VStr "g/L");
      ("H3BO3_conc", VNum (lit 0.4)); ("H3BO3_vol", VNum 4);
      ("sample_vol", VNum 50); ("NaOH_conc", VNum 1); ("NaOH_vol", VNum 2);
      ("hyd_MgCl2", VStr "Hexahydrate"); ("hyd_CaCl2", VStr "Anhydrous");
      ("hyd_MgSO4", VStr "Heptahydrate"); ("hyd_Na2SO4", VStr "Anhydrous") ].

(** The same payload with the two trace ions. *)
Definition payload_full : gmap string (value float) :=
  <["Br" := VNum 65]> (<["B" := VNum (lit 4.5)]> payload_scenario).


Definition present {F : Type} (d : gmap string (value F)) (key : string) : bool :=
  match d !! key with
  | Some _ => true
  | None => false
  end.

(** A parser of numerals that accepts nothing: the payloads above carry
    their numbers as numbers. *)
Definition no_numerals (s : string) : option float := None.

(** A solver that answers [solver_output] whatever the script. *)
Definition canned_solver (pqi : string) : result (list (gmap string (value float))) :=
  Ok solver_output.







(** ** The generated script *)

(** Block 2a of the script: the acid addition, in one step. *)
Definition acid_block {F : Type} `{PyNumber F} (H3BO3_H2O M7 : F) : string :=
  concat_lines
    [ ln ["REACTION"; "2"];
      ln [""; "H3BO3"; "1"];
      ln [""; "H2O"; format_f 3 H3BO3_H2O];
      ln [""; format_f 8 M7; "millimoles"; "in "; "1"; "steps"];
      NL ].

(** Block 2b of the script: the base titration, in twenty steps. *)
Definition base_block {F : Type} `{PyNumber F} (NaOH_H2O M8 : F) : string :=
  concat_lines
    [ ln ["REACTION"; "2"];
      ln [""; "NaOH"; "1"];
      ln [""; "H2O"; format_f 4 NaOH_H2O];
      ln [""; format_f 8 M8; "millimoles"; "in "; "20"; "steps"];
      NL ].

Lemma string_app_assoc (a b c : string) : (a ++ b) ++ c = a ++ (b ++ c).
Proof.
  induction a as [|ch a IH]; [reflexivity|].
  change (String ch ((a ++ b) ++ c) = String ch (a ++ (b ++ c))).
  now rewrite IH.
Qed.

Lemma concat_lines_app (l1 l2 : list string) :
  concat_lines (l1 ++ l2)%list = concat_lines l1 ++ concat_lines l2.
Proof.
  unfold concat_lines. induction l1 as [|x l1 IH]; [reflexivity|].
  cbn [app fold_right]. rewrite IH. symmetry. apply string_app_assoc.
Qed.

(** The generator either raises ZeroDivisionError (a zero aliquot water
    mass, acid concentration or base concentration) or returns a script that
    contains the two blocks, with the step count 20. *)
Lemma build_phreeqc_input_cases {F : Type} `{PyNumber F}
    (ion : ions F) (p : params F) (water_mass : F) :
  is_zero (of_int 1000) = false -> is_zero (of_int RF) = false ->
  let kgw := quot (sample_vol p * water_mass)%py (of_int 1000) in
  (is_zero kgw = false -> is_zero (H3BO3_conc p) = false ->
   is_zero (NaOH_conc p) = false ->
   exists pre mid,
     build_phreeqc_input ion p water_mass =
     Ok (pre
         ++ acid_block (quot (lit 55.5556) (H3BO3_conc p))
                       (quot (H3BO3_conc p * H3BO3_vol p)%py kgw)
         ++ mid
         ++ base_block (quot (lit 55.5556) (NaOH_conc p))
                       (quot (NaOH_conc p * NaOH_vol p)%py kgw),
         20%Z)) /\
  (is_zero kgw || is_zero (H3BO3_conc p) || is_zero (NaOH_conc p) = true ->
   build_phreeqc_input ion p water_mass = Raise ZeroDivisionError).
Proof.
  intros H1000 HRF kgw. unfold build_phreeqc_input, r, div.
  rewrite H1000, HRF. cbn [mbind result_bind mret result_ret].
  fold kgw. split.
  - intros Hk Ha Hb. rewrite Hk, Ha, Hb. cbn [mbind result_bind].
    match goal with
    | |- exists pre mid, mret (concat_lines ?L, _) = _ =>
        exists (concat_lines (firstn 37 L)),
               (concat_lines (firstn 4 (skipn 42 L)))
    end.
    unfold acid_block, base_block. rewrite <- !concat_lines_app.
    reflexivity.
  - intros Hz. destruct (is_zero kgw); [reflexivity|].
    cbn [mbind result_bind].
    destruct (is_zero (H3BO3_conc p)); [reflexivity|].
    cbn [mbind result_bind].
    destruct (is_zero (NaOH_conc p)); [reflexivity|discriminate].
Qed.

(** C10 (as stated). With a sample volume of 0 the generator raises
    ZeroDivisionError: it returns neither a script nor the step count. *)
Lemma C10_zero_sample_volume_counterexample :
  build_phreeqc_input scenario_ions (mk_params (lit 0.4) 4 0 1 2 (lit 8.5))
    (lit 0.95) = Raise ZeroDivisionError.
Proof. vm_compute. reflexivity. Qed.

(** C10 (amended). For every titration parameter set whose aliquot water
    mass kgw = sample_vol * water_mass / 1000, acid concentration and base
    concentration are non-zero, the generator returns a script together with
    the step count 20, whatever the volumes; the script contains the acid
    block with amount (H3BO3_conc * H3BO3_vol) / kgw in one step and
    diluent-water ratio 55.5556 / H3BO3_conc, and ends with the base block
    with amount (NaOH_conc * NaOH_vol) / kgw in 20 steps and ratio
    55.5556 / NaOH_conc.  When one of the three is zero it raises
    ZeroDivisionError instead. *)
Theorem C10_script_blocks_and_step_count :
  (forall (ion : ions float) (p : params float) (water_mass : float),
     let kgw := sample_vol p * water_mass / 1000 in
     ((kgw =? 0) = false -> (H3BO3_conc p =? 0) = false ->
      (NaOH_conc p =? 0) = false ->
      exists pre mid,
        build_phreeqc_input ion p water_mass =
        Ok (pre
            ++ acid_block (55.5556 / H3BO3_conc p)
                          (H3BO3_conc p * H3BO3_vol p / kgw)
            ++ mid
            ++ base_block (55.5556 / NaOH_conc p)
                          (NaOH_conc p * NaOH_vol p / kgw),
            20%Z)) /\
     ((kgw =? 0) || (H3BO3_conc p =? 0) || (NaOH_conc p =? 0) = true ->
      build_phreeqc_input ion p water_mass = Raise ZeroDivisionError)) /\
  (forall (ion : ions Q) (p : params Q) (water_mass : Q),
     let kgw := (sample_vol p * water_mass / 1000)%Q in
     (~ (kgw == 0)%Q -> ~ (H3BO3_conc p == 0)%Q -> ~ (NaOH_conc p == 0)%Q ->
      exists pre mid,
        build_phreeqc_input ion p water_mass =
        Ok (pre
            ++ acid_block (55.5556 / H3BO3_conc p)%Q
                          (H3BO3_conc p * H3BO3_vol p / kgw)%Q
            ++ mid
            ++ base_block (55.5556 / NaOH_conc p)%Q
                          (NaOH_conc p * NaOH_vol p / kgw)%Q,
            20%Z))).
Proof.
  split.
  - intros ion p wm.
    exact (build_phreeqc_input_cases ion p wm eq_refl eq_refl).
  - intros ion p wm kgw Hk Ha Hb.
    apply (proj1 (@build_phreeqc_input_cases Q Exact.number ion p wm
                    eq_refl eq_refl));
      cbv [is_zero Exact.number]; apply not_true_is_false; intros E;
      apply Qeq_bool_eq in E; [now apply Hk | now apply Ha | now apply Hb].
Qed.

Lemma C10_script_blocks_and_step_count_witness :
  exists pre mid,
    build_phreeqc_input scenario_ions
      (mk_params (lit 0.4) 4 50 1 2 (lit 8.5)) (lit 0.95) =
    Ok (pre
        ++ acid_block (55.5556 / lit 0.4) (lit 0.4 * 4 / (50 * lit 0.95 / 1000))
        ++ mid
        ++ base_block (55.5556 / 1) (1 * 2 / (50 * lit 0.95 / 1000)),
        20%Z).
Proof.
  exact (proj1 (proj1 C10_script_blocks_and_step_count scenario_ions
                  (mk_params (lit 0.4) 4 50 1 2 (lit 8.5)) (lit 0.95))
           eq_refl eq_refl eq_refl).
Defined.

(** * Further properties of the code *)

Local Open Scope Q_scope.

(** X1. Mass balance of the recipe in exact arithmetic: the two sulfate
    salts together carry all the (non-negative) sulfate; on the MgSO4 path
    magnesium is split between MgCl2 and MgSO4 without loss and sodium goes
    entirely to NaCl; on the Na2SO4 path magnesium goes entirely to MgCl2 and
    sodium is split between NaCl and twice Na2SO4 as long as SO4 is not
    negative and Na covers 2 * SO4. *)
Theorem X1_recipe_mass_balance (ion : ions Q) :
  let s := build_recipe_salts ion in
  (0 <= SO4 ion -> MgSO4 s + Na2SO4 s == SO4 ion) /\
  (SO4 ion <= 0 -> MgSO4 s + Na2SO4 s == 0) /\
  (0 <= SO4 ion -> SO4 ion <= Mg ion ->
     MgCl2 s + MgSO4 s == Mg ion /\ (0 <= Na ion -> NaCl s == Na ion)) /\
  (Mg ion < SO4 ion ->
     (0 <= Mg ion -> MgCl2 s == Mg ion) /\
     (0 <= SO4 ion -> 2 * SO4 ion <= Na ion ->
      NaCl s + 2 * Na2SO4 s == Na ion)).
Proof.
  destruct ion as [na k li mg ca so4].
  cbv [build_recipe_salts MgCl2 MgSO4 NaCl Na2SO4 Na Mg SO4]. exact_ops.
  destruct (Qlt_le_dec mg so4); cbn [Z.eqb Pos.eqb]; exact_ops;
    repeat match goal with
           | |- context [Qlt_le_dec ?a ?b] => destruct (Qlt_le_dec a b)
           end;
    repeat split; intros; lra.
Qed.

Lemma X1_recipe_mass_balance_witness :
  let s := build_recipe_salts (Ions 100 5 5 (3 # 1) 5 (7 # 1)) in
  MgSO4 s + Na2SO4 s == 7 /\ MgCl2 s == 3 /\ NaCl s + 2 * Na2SO4 s == 100.
Proof.
  pose proof (X1_recipe_mass_balance (Ions 100 5 5 (3 # 1) 5 (7 # 1)))
    as (H1 & _ & _ & H4).
  cbv zeta in *. split; [|split].
  - apply H1. discriminate.
  - apply H4; [reflexivity | discriminate].
  - apply H4; [reflexivity | discriminate | discriminate].
Defined.

Local Open Scope float_scope.




(** ** The classifier on arbitrary solver outputs *)

Lemma classify_row_skipped {F : Type} `{PyNumber F} (step_ml : F)
    (acc : Z * list (point F) * F) (row : gmap string (value F)) :
  state_is row "react" = false -> row_ok row = true ->
  classify_row step_ml acc row = Ok acc.
Proof.
  intros Hs Hok. unfold classify_row. destruct acc as [[c t] v].
  rewrite (row_ok_ratio row Hok). cbn [mbind result_bind].
  fold (state_is row "i_soln"). fold (state_is row "react"). rewrite Hs.
  now destruct (state_is row "i_soln").
Qed.

(** From any count [c] of reaction rows already met: the reaction rows still
    to be skipped are dropped, every later one yields a point. *)
Lemma classify_rows_any {F : Type} `{PyNumber F} (step_ml : F)
    (rows : list (gmap string (value F))) :
  forallb row_ok rows = true ->
  forall (c : Z) (t : list (point F)) (v : F),
    (0 <= c)%Z ->
    exists c' v',
      classify_rows step_ml (c, t, v) rows =
      Ok (c', (t ++ points step_ml v
                 (skipn (Z.to_nat (2 - c))
                    (List.filter (fun row => state_is row "react") rows)))%list,
          v').
Proof.
  induction rows as [|row rows IH]; intros Hall c t v Hc.
  - exists c, v. cbn [classify_rows List.filter]. rewrite skipn_nil.
    cbn [points]. now rewrite app_nil_r.
  - cbn [forallb] in Hall. apply andb_prop in Hall as [Hok Hall].
    cbn [classify_rows List.filter].
    destruct (state_is row "react") eqn:Hs.
    + rewrite (classify_row_react _ _ _ _ _ Hs Hok).
      destruct (c + 1 <=? 2)%Z eqn:E; cbn [mbind result_bind].
      * apply Z.leb_le in E.
        destruct (IH Hall (c + 1)%Z t v) as (c' & v' & IHe); [lia|].
        exists c', v'. rewrite IHe.
        replace (Z.to_nat (2 - c)) with (S (Z.to_nat (2 - (c + 1)))) by lia.
        reflexivity.
      * apply Z.leb_gt in E.
        destruct (IH Hall (c + 1)%Z (t ++ points step_ml v [row])%list
                    (round_to 8 (v + step_ml)%py)) as (c' & v' & IHe); [lia|].
        exists c', v'. rewrite IHe.
        replace (Z.to_nat (2 - c)) with 0%nat by lia.
        replace (Z.to_nat (2 - (c + 1))) with 0%nat by lia.
        cbn [skipn points]. now rewrite <- app_assoc.
    + rewrite (classify_row_skipped _ _ _ Hs Hok). cbn [mbind result_bind].
      now apply IH.
Qed.

Lemma classify_rows_app {F : Type} `{PyNumber F} (step_ml : F)
    (l1 l2 : list (gmap string (value F))) (acc : Z * list (point F) * F) :
  classify_rows step_ml acc (l1 ++ l2) =
  (acc' ← classify_rows step_ml acc l1; classify_rows step_ml acc' l2).
Proof.
  revert acc. induction l1 as [|row l1 IH]; intros acc; [reflexivity|].
  cbn [app classify_rows].
  destruct (classify_row step_ml acc row) as [acc'|e]; cbn [mbind result_bind];
    [apply IH|reflexivity].
Qed.


Definition unreadable_row : gmap string (value float) :=
  <["m_B(OH)3(mol/kgw)" := VStr "-nan(ind)"]> (solver_row "i_soln" 7 0 0).

Lemma classify_all_ok {F : Type} `{PyNumber F} (step_ml : F)
    (rows : list (gmap string (value F))) :
  forallb row_ok rows = true ->
  classify step_ml rows =
  Ok (points step_ml (lit 0.0)
        (skipn 2 (List.filter (fun row => state_is row "react") rows))).
Proof.
  intros Hok. unfold classify.
  destruct (classify_rows_any step_ml rows Hok 0%Z [] (lit 0.0))
    as (c' & v' & E); [lia|].
  rewrite E. reflexivity.
Qed.



(** X4. The ratio is evaluated on every row before its state is looked at:
    a row on which [b4b3_ratio] raises aborts the whole classification with
    that exception, even when the row is one the classifier would skip (the
    initial solution, or one of the first two reaction rows), and whatever
    follows it. *)
Theorem X4_bad_row_aborts_classification :
  forall (F : Type) (N : PyNumber F) (step_ml : F)
         (pre post : list (gmap string (value F)))
         (row : gmap string (value F)) (e : exn),
    forallb row_ok pre = true ->
    b4b3_ratio row = Raise e ->
    classify step_ml (pre ++ row :: post) = Raise e.
Proof.
  intros F N step_ml pre post row e Hpre Hrow. unfold classify.
  rewrite classify_rows_app.
  destruct (classify_rows_any step_ml pre Hpre 0%Z [] (lit 0.0))
    as (c' & v' & E); [lia|].
  rewrite E. cbn [mbind result_bind classify_rows].
  unfold classify_row. rewrite Hrow. reflexivity.
Qed.

Lemma X4_bad_row_aborts_classification_witness :
  state_is unreadable_row "i_soln" = true /\
  classify 0.1 (unreadable_row :: solver_output) = Raise TypeError.
Proof.
  split; [reflexivity|].
  exact (X4_bad_row_aborts_classification float _ 0.1 [] solver_output
           unreadable_row TypeError eq_refl eq_refl).
Defined.

(** ** Text in the boron columns *)

(** The column [key] of [row] holds a non-empty string. *)
Definition text_at {F : Type} (row : gmap string (value F)) (key : string) : bool :=
  match row !! key with
  | Some (VStr s) => negb (String.eqb s "")
  | _ => false
  end.

Lemma get_or_0_text {F : Type} `{PyNumber F}
    (row : gmap string (value F)) (key : string) :
  text_at row key = true -> exists s, get_or_0 row key = VStr s.
Proof.
  unfold text_at, get_or_0.
  destruct (row !! key) as [[x|s]|]; try discriminate.
  destruct (String.eqb s ""); [discriminate|]. eauto.
Qed.

Lemma get_or_0_text_free {F : Type} `{PyNumber F}
    (row : gmap string (value F)) (key : string) :
  text_at row key = false -> get_or_0 row key = VNum (operand row key).
Proof.
  unfold text_at, operand, get_or_0.
  destruct (row !! key) as [[x|s]|]; [destruct (is_zero x)| |]; try reflexivity.
  destruct (String.eqb s ""); [reflexivity|discriminate].
Qed.

Lemma b4b3_ratio_text {F : Type} `{PyNumber F} (row : gmap string (value F)) :
  existsb (text_at row) boron_keys = true -> b4b3_ratio row = Raise TypeError.
Proof.
  unfold boron_keys. cbn [existsb]. intros Hex. unfold b4b3_ratio.
  destruct (text_at row "m_B(OH)3(mol/kgw)") eqn:HL;
  destruct (text_at row "m_B(OH)4-(mol/kgw)") eqn:HM;
  destruct (text_at row "m_B3O3(OH)4-(mol/kgw)") eqn:HN;
  destruct (text_at row "m_B4O5(OH)4-2(mol/kgw)") eqn:HO;
  destruct (text_at row "m_MgB(OH)4+(mol/kgw)") eqn:HP;
  destruct (text_at row "m_CaB(OH)4+(mol/kgw)") eqn:HQ;
  try discriminate Hex; clear Hex;
  repeat match goal with
         | E : text_at row ?k = true |- _ =>
             destruct (get_or_0_text row k E) as [? ->]; clear E
         | E : text_at row ?k = false |- _ =>
             rewrite (get_or_0_text_free row k E); clear E
         end;
  reflexivity.
Qed.

Lemma b4b3_ratio_text_free {F : Type} `{PyNumber F} (row : gmap string (value F)) :
  existsb (text_at row) boron_keys = false ->
  b4b3_ratio row =
  let L := operand row "m_B(OH)3(mol/kgw)" in
  let M := operand row "m_B(OH)4-(mol/kgw)" in
  let N := operand row "m_B3O3(OH)4-(mol/kgw)" in
  let O := operand row "m_B4O5(OH)4-2(mol/kgw)" in
  let P := operand row "m_MgB(OH)4+(mol/kgw)" in
  let Q := operand row "m_CaB(OH)4+(mol/kgw)" in
  let num := (M + P + Q + N + O + O)%py in
  let den := (L + N + N + O + O)%py in
  if (den >? lit 1e-30)%py then div num den else Ok (lit 0.0).
Proof.
  unfold boron_keys. cbn [existsb]. rewrite !orb_false_iff.
  intros (HL & HM & HN & HO & HP & HQ & _).
  unfold b4b3_ratio.
  rewrite (get_or_0_text_free _ _ HL), (get_or_0_text_free _ _ HM),
    (get_or_0_text_free _ _ HN), (get_or_0_text_free _ _ HO),
    (get_or_0_text_free _ _ HP), (get_or_0_text_free _ _ HQ).
  reflexivity.
Qed.

Lemma exact_gt_tiny_nonzero (d : Q) :
  (d >? lit 1e-30)%py = true -> is_zero d = false.
Proof.
  cbv [gt lit is_zero Exact.number].
  destruct (Qlt_le_dec 1e-30 d) as [Hgt|]; [intros _|discriminate].
  destruct (Qeq_bool d 0) eqn:E; [|reflexivity].
  apply Qeq_bool_eq in E. rewrite E in Hgt. discriminate Hgt.
Qed.

Lemma b64_b4b3_ratio_returns (row : gmap string (value float)) :
  existsb (text_at row) boron_keys = false -> exists v, b4b3_ratio row = Ok v.
Proof.
  intros Hrow. rewrite (b4b3_ratio_text_free row Hrow). cbv zeta.
  match goal with
  | |- exists v, (if (?d >? ?t)%py then _ else _) = _ =>
      destruct (d >? t)%py eqn:Hd
  end.
  - rewrite div_nonzero by exact (b64_gt_tiny_nonzero _ Hd). eauto.
  - eauto.
Qed.

Lemma exact_b4b3_ratio_returns (row : gmap string (value Q)) :
  existsb (text_at row) boron_keys = false -> exists v, b4b3_ratio row = Ok v.
Proof.
  intros Hrow. rewrite (b4b3_ratio_text_free row Hrow). cbv zeta.
  match goal with
  | |- exists v, (if (?d >? ?t)%py then _ else _) = _ =>
      destruct (d >? t)%py eqn:Hd
  end.
  - rewrite div_nonzero by exact (exact_gt_tiny_nonzero _ Hd). eauto.
  - eauto.
Qed.

(** A row whose B(OH)3 cell is the empty string. *)
Definition blank_cell_row : gmap string (value float) :=
  <["m_B(OH)3(mol/kgw)" := VStr ""]> (<["m_B(OH)4-(mol/kgw)" := VNum 1]> ∅).

(** X5. The only exception of [b4b3_ratio] is TypeError, and it is raised
    exactly when one of the six boron columns holds a non-empty string: at
    every carrier such a row raises TypeError, and in binary64 and in exact
    arithmetic every other row returns a number (never ZeroDivisionError).
    An empty string counts as 0, as a missing column does. *)
Theorem X5_boron_ratio_type_error :
  (forall (F : Type) (N : PyNumber F) (row : gmap string (value F)),
     existsb (text_at row) boron_keys = true ->
     b4b3_ratio row = Raise TypeError) /\
  (forall row : gmap string (value float),
     existsb (text_at row) boron_keys = false ->
     exists v, b4b3_ratio row = Ok v) /\
  (forall row : gmap string (value Q),
     existsb (text_at row) boron_keys = false ->
     exists v, b4b3_ratio row = Ok v) /\
  b4b3_ratio blank_cell_row = Ok 0.
Proof.
  split; [|split; [|split]].
  - intros F N row. apply b4b3_ratio_text.
  - apply b64_b4b3_ratio_returns.
  - apply exact_b4b3_ratio_returns.
  - reflexivity.
Qed.

Lemma X5_boron_ratio_type_error_witness :
  b4b3_ratio
    (<["m_CaB(OH)4+(mol/kgw)" := VStr "n/a"]> row_one_one) = Raise TypeError.
Proof.
  exact (proj1 X5_boron_ratio_type_error float Binary64.number
           (<["m_CaB(OH)4+(mol/kgw)" := VStr "n/a"]> row_one_one) eq_refl).
Defined.

(** ** The routes *)

Lemma respond_json {A : Type} (c : result A) (a : A) :
  respond c = Json a -> c = Ok a.
Proof. destruct c; cbn; congruence. Qed.

(** One step backwards through a successful chain of binds. *)
Ltac bind_inv H :=
  repeat first
    [ match type of H with
      | mbind _ ?c = Ok _ =>
          let E := fresh "E" in
          destruct c eqn:E; cbn [mbind result_bind] in H; [|discriminate H]
      end
    | match type of H with
      | match ?p with pair _ _ => _ end = Ok _ => destruct p
      end ].

Lemma getitem_present {F : Type} (d : gmap string (value F))
    (key : string) (v : value F) :
  getitem d key = Ok v -> present d key = true.
Proof. unfold getitem, present. now destruct (d !! key). Qed.

Lemma float_item_present {F : Type} `{PyNumber F}
    (float_of_str : string -> option F) (d : gmap string (value F))
    (key : string) (x : F) :
  float_item float_of_str d key = Ok x -> present d key = true.
Proof.
  unfold float_item, getitem, present. now destruct (d !! key).
Qed.

(** The fields read by indexing: by the parser, and by the calculation. *)
Definition recipe_fields : list string :=
  [ "density"; "tds"; "tds_unit"; "Na"; "K"; "Li"; "Mg"; "Ca"; "SO4" ].

Definition calculate_fields : list string :=
  (recipe_fields ++
   [ "B"; "Br"; "H3BO3_conc"; "H3BO3_vol"; "sample_vol"; "NaOH_conc";
     "NaOH_vol" ])%list.

Lemma parse_payload_present {F : Type} `{PyNumber F}
    (float_of_str : string -> option F) (d : gmap string (value F))
    (res : F * ions F * gmap string (value F)) :
  parse_payload float_of_str d = Ok res ->
  forallb (present d) recipe_fields = true.
Proof.
  intros Hp. unfold parse_payload in Hp. bind_inv Hp.
  unfold recipe_fields. cbn [forallb].
  repeat match goal with
         | E : float_item _ d ?k = Ok _ |- _ =>
             rewrite (float_item_present _ _ _ _ E); clear E
         | E : getitem d ?k = Ok _ |- _ =>
             rewrite (getitem_present _ _ _ E); clear E
         end.
  reflexivity.
Qed.

Lemma build_phreeqc_input_steps {F : Type} `{PyNumber F}
    (ion : ions F) (p : params F) (wm : F) (pqi : string) (n : Z) :
  build_phreeqc_input ion p wm = Ok (pqi, n) -> n = 20%Z.
Proof.
  intros Hb. unfold build_phreeqc_input in Hb. bind_inv Hb.
  cbv [mret result_ret] in Hb. now inversion Hb.
Qed.

Lemma calculate_json_inv {F : Type} `{PyNumber F}
    (float_of_str : string -> option F)
    (run_phreeqc : string -> result (list (gmap string (value F))))
    (d : gmap string (value F)) (j : calculate_json F) :
  calculate float_of_str run_phreeqc d = Json j ->
  exists wm ion hyd p pqi rows step_ml b br,
    parse_payload float_of_str d = Ok (wm, ion, hyd) /\
    forallb (present d) calculate_fields = true /\
    build_phreeqc_input ion p wm = Ok (pqi, 20%Z) /\
    run_phreeqc pqi = Ok rows /\
    classify step_ml rows = Ok (cj_titration j) /\
    build_recipe ion hyd = Ok (cj_recipe j) /\
    cj_water_mass j = round_to 6 wm /\
    cj_n_steps j = 20%Z /\
    cj_ion_mmol_kgw j =
      [ ("Na", round_to 5 (Na ion)); ("K", round_to 5 (K ion));
        ("Li", round_to 5 (Li ion)); ("Mg", round_to 5 (Mg ion));
        ("Ca", round_to 5 (Ca ion)); ("SO4", round_to 5 (SO4 ion));
        ("B", round_to 5 b); ("Br", round_to 5 br) ].
Proof.
  intros Hc. apply respond_json in Hc.
  destruct (parse_payload float_of_str d) as [[[wm ion] hyd]|e] eqn:Hp;
    cbn [mbind result_bind] in Hc; [|discriminate Hc].
  pose proof (parse_payload_present _ _ _ Hp) as Hpres.
  bind_inv Hc.
  match goal with
  | E : build_phreeqc_input _ _ _ = Ok (_, ?n) |- _ =>
      pose proof (build_phreeqc_input_steps _ _ _ _ _ E); subst n
  end.
  cbv [mret result_ret] in Hc. inversion Hc; subst j; clear Hc.
  cbn [cj_titration cj_recipe cj_water_mass cj_n_steps cj_ion_mmol_kgw].
  do 9 eexists.
  repeat match goal with |- _ /\ _ => split end; try reflexivity;
    try eassumption.
  unfold calculate_fields. rewrite forallb_app, Hpres. cbn [forallb andb].
  repeat match goal with
         | E : float_item _ d ?k = Ok _ |- _ =>
             rewrite (float_item_present _ _ _ _ E); clear E
         end.
  reflexivity.
Qed.

(** X6. A successful calculation agrees with the recipe route: whenever
    /calculate answers JSON, /recipe answers JSON on the same payload with the
    same recipe and the same water mass; the reported step count is 20, the
    ion table lists Na, K, Li, Mg, Ca, SO4, B, Br in this order, and the
    solver returned rows for the script generated from the parsed ions. *)
Theorem X6_calculate_agrees_with_recipe_route :
  forall (F : Type) (N : PyNumber F) (float_of_str : string -> option F)
         (run_phreeqc : string -> result (list (gmap string (value F))))
         (d : gmap string (value F)) (j : calculate_json F),
    calculate float_of_str run_phreeqc d = Json j ->
    recipe_route float_of_str d
      = Json (RecipeJson (cj_recipe j) (cj_water_mass j)) /\
    cj_n_steps j = 20%Z /\
    map fst (cj_ion_mmol_kgw j) = ["Na"; "K"; "Li"; "Mg"; "Ca"; "SO4"; "B"; "Br"] /\
    exists wm ion hyd p pqi rows,
      parse_payload float_of_str d = Ok (wm, ion, hyd) /\
      build_phreeqc_input ion p wm = Ok (pqi, 20%Z) /\
      run_phreeqc pqi = Ok rows.
Proof.
  intros F N float_of_str run_phreeqc d j Hc.
  destruct (calculate_json_inv _ _ _ _ Hc)
    as (wm & ion & hyd & p & pqi & rows & step_ml & b & br &
        Hp & _ & Hpqi & Hrun & _ & Hrec & Hwm & Hn & Hion).
  split; [|split; [|split]].
  - unfold recipe_route. rewrite Hp. cbn [mbind result_bind].
    rewrite Hrec. cbn [mbind result_bind]. now rewrite Hwm.
  - exact Hn.
  - now rewrite Hion.
  - exists wm, ion, hyd, p, pqi, rows. auto.
Qed.

Lemma X6_calculate_agrees_with_recipe_route_witness :
  exists j,
    recipe_route no_numerals payload_full
      = Json (RecipeJson (cj_recipe j) (cj_water_mass j)) /\
    cj_n_steps j = 20%Z.
Proof.
  destruct (calculate no_numerals canned_solver payload_full) as [j|e] eqn:E;
    [|vm_compute in E; discriminate E].
  exists j.
  destruct (X6_calculate_agrees_with_recipe_route float Binary64.number
              no_numerals canned_solver payload_full j E) as (H1 & H2 & _).
  split; assumption.
Defined.

(** X7. Fields read by indexing are required: if the payload lacks one of
    the nine fields of the parser the recipe route answers status 500, and if
    it lacks one of those or of B, Br, H3BO3_conc, H3BO3_vol, sample_vol,
    NaOH_conc, NaOH_vol the calculation answers status 500, whatever the
    solver. *)
Theorem X7_missing_field_is_status_500 :
  forall (F : Type) (N : PyNumber F) (float_of_str : string -> option F)
         (run_phreeqc : string -> result (list (gmap string (value F))))
         (d : gmap string (value F)) (key : string),
    d !! key = None ->
    (In key recipe_fields ->
     exists e, recipe_route float_of_str d = Error500 e) /\
    (In key calculate_fields ->
     exists e, calculate float_of_str run_phreeqc d = Error500 e).
Proof.
  intros F N float_of_str run_phreeqc d key Hk.
  assert (Hmiss : forall l, In key l -> forallb (present d) l = true -> False).
  { intros l Hin Hall. rewrite forallb_forall in Hall.
    specialize (Hall key Hin). unfold present in Hall.
    rewrite Hk in Hall. discriminate Hall. }
  split; intros Hin.
  - destruct (recipe_route float_of_str d) as [r|e] eqn:E; [|eauto].
    exfalso. apply respond_json in E.
    destruct (parse_payload float_of_str d) as [res|e] eqn:Hp;
      [|discriminate E].
    exact (Hmiss _ Hin (parse_payload_present _ _ _ Hp)).
  - destruct (calculate float_of_str run_phreeqc d) as [j|e] eqn:E; [|eauto].
    exfalso.
    destruct (calculate_json_inv _ _ _ _ E)
      as (wm & ion & hyd & p & pqi & rows & step_ml & b & br & _ & Hall & _).
    exact (Hmiss _ Hin Hall).
Qed.

Lemma X7_missing_field_is_status_500_witness :
  exists e,
    calculate no_numerals canned_solver (delete "NaOH_vol" payload_full)
    = Error500 e.
Proof.
  apply (X7_missing_field_is_status_500 float Binary64.number no_numerals
           canned_solver (delete "NaOH_vol" payload_full) "NaOH_vol").
  - vm_compute. reflexivity.
  - cbn. tauto.
Defined.

Lemma parse_payload_insert_pH {F : Type} `{PyNumber F}
    (float_of_str : string -> option F) (d : gmap string (value F))
    (v : value F) :
  parse_payload float_of_str (<["pH" := v]> d) = parse_payload float_of_str d.
Proof.
  unfold parse_payload, float_item, getitem.
  now rewrite !lookup_insert_ne by discriminate.
Qed.

Lemma parse_payload_delete_pH {F : Type} `{PyNumber F}
    (float_of_str : string -> option F) (d : gmap string (value F)) :
  parse_payload float_of_str (delete "pH" d) = parse_payload float_of_str d.
Proof.
  unfold parse_payload, float_item, getitem.
  now rewrite !lookup_delete_ne by discriminate.
Qed.

(** X8. The target pH of the request has no effect: a payload whose pH
    field is any value [float] accepts gives the same answer as the payload
    without the field (where 8.5 is taken). *)
Theorem X8_target_pH_has_no_effect :
  forall (F : Type) (N : PyNumber F) (float_of_str : string -> option F)
         (run_phreeqc : string -> result (list (gmap string (value F))))
         (d : gmap string (value F)) (v : value F) (x : F),
    py_float float_of_str v = Ok x ->
    calculate float_of_str run_phreeqc (<["pH" := v]> d)
    = calculate float_of_str run_phreeqc (delete "pH" d).
Proof.
  intros F N float_of_str run_phreeqc d v x Hv. unfold calculate.
  rewrite parse_payload_insert_pH, parse_payload_delete_pH.
  unfold float_item, getitem.
  rewrite lookup_insert_eq, lookup_delete_eq.
  rewrite !lookup_insert_ne by discriminate.
  rewrite !lookup_delete_ne by discriminate.
  cbn [from_option id]. rewrite Hv.
  reflexivity.
Qed.

Lemma X8_target_pH_has_no_effect_witness :
  calculate no_numerals canned_solver (<["pH" := VNum 11]> payload_full)
  = calculate no_numerals canned_solver (delete "pH" payload_full).
Proof.
  exact (X8_target_pH_has_no_effect float Binary64.number no_numerals
           canned_solver payload_full (VNum 11) 11 eq_refl).
Defined.

Lemma to_mmol_kgw_zero_water {F : Type} `{PyNumber F} (mg_per_L MW wm : F) :
  is_zero wm = true -> to_mmol_kgw mg_per_L MW wm = Raise ZeroDivisionError.
Proof. intros Hz. unfold to_mmol_kgw, div. now rewrite Hz. Qed.

(** X9. A zero water mass is an error, not an infinity: when density, tds,
    tds_unit and Na are readable and the computed water mass is zero, both
    routes answer status 500 with ZeroDivisionError (raised by the first
    mg/L to mmol/kgw conversion). *)
Theorem X9_zero_water_mass_is_status_500 :
  forall (F : Type) (N : PyNumber F) (float_of_str : string -> option F)
         (run_phreeqc : string -> result (list (gmap string (value F))))
         (d : gmap string (value F)) (density tds na wm : F)
         (tds_unit : value F),
    float_item float_of_str d "density" = Ok density ->
    float_item float_of_str d "tds" = Ok tds ->
    getitem d "tds_unit" = Ok tds_unit ->
    calc_water_mass density tds tds_unit = Ok wm ->
    is_zero wm = true ->
    float_item float_of_str d "Na" = Ok na ->
    recipe_route float_of_str d = Error500 ZeroDivisionError /\
    calculate float_of_str run_phreeqc d = Error500 ZeroDivisionError.
Proof.
  intros F N float_of_str run_phreeqc d density tds na wm tds_unit
    Hd Ht Hu Hw Hz Hna.
  assert (Hp : parse_payload float_of_str d = Raise ZeroDivisionError).
  { unfold parse_payload. rewrite Hd, Ht, Hu. cbn [mbind result_bind].
    rewrite Hw. cbn [mbind result_bind]. rewrite Hna.
    cbn [mbind result_bind]. now rewrite (to_mmol_kgw_zero_water na Q3 wm Hz). }
  unfold recipe_route, calculate. now rewrite Hp.
Qed.

(** A brine whose dissolved solids weigh as much as the litre itself. *)
Definition payload_no_water : gmap string (value float) :=
  <["density" := VNum 1]> (<["tds" := VNum 1000]> payload_full).

Lemma X9_zero_water_mass_is_status_500_witness :
  recipe_route no_numerals payload_no_water = Error500 ZeroDivisionError /\
  calculate no_numerals canned_solver payload_no_water
  = Error500 ZeroDivisionError.
Proof.
  exact (X9_zero_water_mass_is_status_500 float Binary64.number no_numerals
           canned_solver payload_no_water 1 1000 2000 0 (VStr "g/L")
           eq_refl eq_refl eq_refl eq_refl eq_refl eq_refl).
Defined.

(** ** Hydration choices *)

Lemma parse_payload_hydration {F : Type} `{PyNumber F}
    (float_of_str : string -> option F) (d : gmap string (value F))
    (wm : F) (ion : ions F) (hyd : gmap string (value F)) :
  parse_payload float_of_str d = Ok (wm, ion, hyd) ->
  hydration_form hyd "MgCl2" = default (VStr "Hexahydrate") (d !! "hyd_MgCl2") /\
  hydration_form hyd "CaCl2" = default (VStr "Anhydrous") (d !! "hyd_CaCl2") /\
  hydration_form hyd "MgSO4" = default (VStr "Heptahydrate") (d !! "hyd_MgSO4") /\
  hydration_form hyd "Na2SO4" = default (VStr "Anhydrous") (d !! "hyd_Na2SO4").
Proof.
  intros Hp. unfold parse_payload in Hp.
  repeat match type of Hp with
         | mbind _ ?c = Ok _ =>
             destruct c; cbn [mbind result_bind] in Hp; [|discriminate Hp]
         end.
  cbv [mret result_ret] in Hp. inversion Hp; subst; clear Hp.
  unfold hydration_form.
  repeat split;
    rewrite ?lookup_insert_ne by discriminate; now rewrite lookup_insert_eq.
Qed.

(** A payload with the nine fields of the parser and nothing else. *)
Definition payload_minimal : gmap string (value float) :=
  list_to_map
    [ ("Na", VNum 2000); ("K", VNum 5000); ("Li", VNum 500); ("Mg", VNum 20);
      ("Ca", VNum 250); ("SO4", VNum 50); ("density", VNum (lit 1.3));
      ("tds", VNum 350); ("tds_unit", VStr "g/L") ].

(** X10. The hydration forms the routes fall back on: with no hydration
    field in the payload MgCl2 is weighed as the hexahydrate, CaCl2 as
    anhydrous, MgSO4 as the heptahydrate and Na2SO4 as anhydrous; a field
    that is present selects the anhydrous mass if it is exactly the string
    "Anhydrous" and the hydrated mass for any other value.  The recipe
    builder called with an empty hydration dictionary takes all four salts
    as anhydrous. *)
Theorem X10_hydration_defaults :
  forall (F : Type) (N : PyNumber F) (float_of_str : string -> option F)
         (d : gmap string (value F)) (wm : F) (ion : ions F)
         (hyd : gmap string (value F)),
    parse_payload float_of_str d = Ok (wm, ion, hyd) ->
    ((d !! "hyd_MgCl2" = None -> D12 hyd = J4) /\
     (d !! "hyd_CaCl2" = None -> D13 hyd = J6) /\
     (d !! "hyd_MgSO4" = None -> D15 hyd = J10) /\
     (d !! "hyd_Na2SO4" = None -> D18 hyd = J12)) /\
    (forall v : value F,
       (d !! "hyd_MgCl2" = Some v ->
        D12 hyd = if value_is v "Anhydrous" then J3 else J4) /\
       (d !! "hyd_CaCl2" = Some v ->
        D13 hyd = if value_is v "Anhydrous" then J6 else J7) /\
       (d !! "hyd_MgSO4" = Some v ->
        D15 hyd = if value_is v "Anhydrous" then J9 else J10) /\
       (d !! "hyd_Na2SO4" = Some v ->
        D18 hyd = if value_is v "Anhydrous" then J12 else J13)) /\
    (D12 (∅ : gmap string (value F)) = J3 /\
     D13 (∅ : gmap string (value F)) = J6 /\
     D15 (∅ : gmap string (value F)) = J9 /\
     D18 (∅ : gmap string (value F)) = J12).
Proof.
  intros F N float_of_str d wm ion hyd Hp.
  destruct (parse_payload_hydration _ _ _ _ _ Hp) as (H1 & H2 & H3 & H4).
  unfold D12, D13, D15, D18, is_anhydrous. rewrite H1, H2, H3, H4.
  split; [|split].
  - repeat split; intros ->; reflexivity.
  - intros v. repeat split; intros ->; reflexivity.
  - repeat split.
Qed.

Lemma X10_hydration_defaults_witness :
  match parse_payload no_numerals payload_minimal with
  | Ok (_, _, hyd) =>
      D12 hyd = J4 /\ D13 hyd = J6 /\ D15 hyd = J10 /\ D18 hyd = J12
  | Raise _ => False
  end.
Proof.
  destruct (parse_payload no_numerals payload_minimal)
    as [[[wm ion] hyd]|e] eqn:E; [|vm_compute in E; discriminate E].
  destruct (X10_hydration_defaults float Binary64.number no_numerals
              payload_minimal wm ion hyd E) as ((H1 & H2 & H3 & H4) & _).
  repeat split; [apply H1|apply H2|apply H3|apply H4]; vm_compute; reflexivity.
Defined.

(** ** The head of the script *)






(** The payload's hydration fields. *)
Definition hydration_fields : list string :=
  [ "hyd_MgCl2"; "hyd_CaCl2"; "hyd_MgSO4"; "hyd_Na2SO4" ].

(** X12. The recipe route reads thirteen fields and nothing else: setting
    or deleting any other field of the payload (the titration setup, B, Br,
    pH, ...) leaves its answer unchanged. *)
Theorem X12_recipe_reads_thirteen_fields :
  forall (F : Type) (N : PyNumber F) (float_of_str : string -> option F)
         (d : gmap string (value F)) (key : string) (v : value F),
    ~ In key (recipe_fields ++ hydration_fields)%list ->
    recipe_route float_of_str (<[key := v]> d) = recipe_route float_of_str d /\
    recipe_route float_of_str (delete key d) = recipe_route float_of_str d.
Proof.
  intros F N float_of_str d key v Hk.
  assert (Hne : forall k, In k (recipe_fields ++ hydration_fields)%list -> key <> k).
  { intros k Hin ->. exact (Hk Hin). }
  unfold recipe_route, parse_payload, float_item, getitem.
  split.
  - now rewrite !lookup_insert_ne by (apply Hne; cbn; tauto).
  - now rewrite !lookup_delete_ne by (apply Hne; cbn; tauto).
Qed.

Lemma X12_recipe_reads_thirteen_fields_witness :
  recipe_route no_numerals (<["NaOH_vol" := VStr "much"]> payload_full)
  = recipe_route no_numerals payload_full.
Proof.
  apply (X12_recipe_reads_thirteen_fields float Binary64.number no_numerals
           payload_full "NaOH_vol" (VStr "much")).
  cbn. intros H.
  repeat match type of H with
         | _ \/ _ => destruct H as [H|H]; [discriminate H|]
         end.
  exact H.
Defined.

(** *** Hydration fields and the titration *)

Lemma build_recipe_any_hydration {F : Type} `{PyNumber F}
    (ion : ions F) (hyd hyd' : gmap string (value F))
    (recipe : list (string * entry F)) :
  build_recipe ion hyd = Ok recipe ->
  exists recipe', build_recipe ion hyd' = Ok recipe'.
Proof.
  intros Hb. apply build_recipe_total.
  - unfold build_recipe, div in Hb.
    destruct (is_zero (of_int 1000)); [discriminate Hb|reflexivity].
  - unfold build_recipe, div in Hb.
    destruct (is_zero (of_int 1000)); [discriminate Hb|].
    cbn [mbind result_bind] in Hb.
    destruct (is_zero Q10); [discriminate Hb|reflexivity].
Qed.

(** Rewrites the lookups of the other keys through an insertion. *)
Ltac skip_insert :=
  repeat match goal with
         | |- context [<[?k := ?v]> ?d !! ?j] =>
             rewrite (lookup_insert_ne d k j v) by discriminate
         end.

Lemma parse_payload_hydration_field {F : Type} `{PyNumber F}
    (float_of_str : string -> option F) (d : gmap string (value F))
    (key : string) (v : value F) :
  In key hydration_fields ->
  match parse_payload float_of_str d with
  | Ok (wm, ion, _) =>
      exists hyd', parse_payload float_of_str (<[key := v]> d) = Ok (wm, ion, hyd')
  | Raise e => parse_payload float_of_str (<[key := v]> d) = Raise e
  end.
Proof.
  intros Hk. unfold parse_payload, float_item, getitem.
  cbn in Hk. destruct Hk as [<-|[<-|[<-|[<-|[]]]]].
  all: skip_insert.
  all: repeat match goal with
              | |- match mbind _ ?c with Ok _ => _ | Raise _ => _ end =>
                  destruct c; cbn [mbind result_bind]; [|reflexivity]
              end.
  all: cbv [mret result_ret]; eauto.
Qed.

(** X13. The hydration forms reach the recipe only: when the calculation
    succeeds, setting a hydration field of the payload to any value leaves it
    successful with the same titration points, water mass, ion table and
    step count. *)
Theorem X13_hydration_leaves_titration_unchanged :
  forall (F : Type) (N : PyNumber F) (float_of_str : string -> option F)
         (run_phreeqc : string -> result (list (gmap string (value F))))
         (d : gmap string (value F)) (key : string) (v : value F)
         (j : calculate_json F),
    In key hydration_fields ->
    calculate float_of_str run_phreeqc d = Json j ->
    exists j',
      calculate float_of_str run_phreeqc (<[key := v]> d) = Json j' /\
      cj_titration j' = cj_titration j /\
      cj_water_mass j' = cj_water_mass j /\
      cj_ion_mmol_kgw j' = cj_ion_mmol_kgw j /\
      cj_n_steps j' = cj_n_steps j.
Proof.
  intros F N float_of_str run_phreeqc d key v j Hk Hc.
  pose proof (parse_payload_hydration_field float_of_str d key v Hk) as Hp.
  assert (Hne : forall k, In k calculate_fields \/ k = "pH" -> key <> k).
  { intros k Hin ->. cbn in Hk, Hin.
    repeat match type of Hk with
           | _ \/ _ => destruct Hk as [Hk|Hk]
           end; try contradiction; subst k;
    repeat match type of Hin with
           | _ \/ _ => destruct Hin as [Hin|Hin]
           end; try discriminate Hin; contradiction. }
  apply respond_json in Hc. unfold calculate.
  destruct (parse_payload float_of_str d) as [[[wm ion] hyd]|e];
    cbn [mbind result_bind] in Hc; [|discriminate Hc].
  destruct Hp as [hyd' ->]. cbn [mbind result_bind].
  unfold float_item, getitem in *.
  rewrite !lookup_insert_ne by (apply Hne; cbn; tauto).
  repeat first
    [ match type of Hc with
      | mbind _ (build_recipe ?i ?h) = Ok _ =>
          let E := fresh "E" in
          destruct (build_recipe i h) eqn:E; cbn [mbind result_bind] in Hc;
          [|discriminate Hc];
          destruct (build_recipe_any_hydration i h hyd' _ E) as [? ->];
          cbn [mbind result_bind]
      end
    | match type of Hc with
      | mbind _ ?c = Ok _ =>
          destruct c; cbn [mbind result_bind] in Hc |- *; [|discriminate Hc]
      end
    | match type of Hc with
      | match ?p with pair _ _ => _ end = Ok _ => destruct p
      end ].
  cbv [mret result_ret] in Hc |- *. injection Hc as <-.
  eexists. split; [reflexivity|]. repeat split.
Qed.

Lemma X13_hydration_leaves_titration_unchanged_witness :
  exists j j',
    calculate no_numerals canned_solver payload_full = Json j /\
    calculate no_numerals canned_solver
      (<["hyd_Na2SO4" := VStr "Decahydrate"]> payload_full) = Json j' /\
    cj_titration j' = cj_titration j.
Proof.
  destruct (calculate no_numerals canned_solver payload_full) as [j|e] eqn:E;
    [|vm_compute in E; discriminate E].
  destruct (X13_hydration_leaves_titration_unchanged float Binary64.number
              no_numerals canned_solver payload_full "hyd_Na2SO4"
              (VStr "Decahydrate") j ltac:(cbn; tauto) E)
    as (j' & H1 & H2 & _).
  exists j, j'. repeat split; assumption.
Defined.

(** ** The selected output of the solver (lines 416-440 of [run_phreeqc])

    The solver's array is read at [arr[r][c]] for [r] below [row_count] and
    [c] below [column_count] only, where the library defines it; it is
    modelled as a function of the two indices.  Its cells are the library's
    objects: [float_of_cell] is [float(v)], [None] standing for the
    TypeError or ValueError the source catches, and [str_of_cell] is
    [str(v)]. *)

Section SelectedOutput.
Context {F : Type} {cell : Type}.
Variable float_of_cell : cell -> option F.
Variable str_of_cell : cell -> string.

(** [float(v)], or [str(v)] when that fails. *)
Definition cell_value (v : cell) : value F :=
  match float_of_cell v with
  | Some x => VNum x
  | None => VStr (str_of_cell v)
  end.

(** [[str(arr[0][c]) for c in range(n_cols)]]. *)
Definition output_headers (arr : nat -> nat -> cell) (n_cols : Z) : list string :=
  map (fun c => str_of_cell (arr 0%nat c)) (seq 0 (Z.to_nat n_cols)).

(** The inner loop: [row[headers[c]] = ...] for [c] in [range(n_cols)]. *)
Definition output_row (arr : nat -> nat -> cell) (headers : list string)
    (n_cols : Z) (r : nat) : gmap string (value F) :=
  fold_left (fun row c => <[nth c headers "" := cell_value (arr r c)]> row)
    (seq 0 (Z.to_nat n_cols)) ∅.

Definition run_phreeqc_rows (arr : nat -> nat -> cell) (n_rows n_cols : Z)
  : result (list (gmap string (value F))) :=
  if (n_rows <? 2)%Z then
    Raise (RuntimeError
      ("PHREEQC returned no output rows." ++ NL ++
       "Check that SELECTED_OUTPUT is defined correctly in the input string."))
  else
    let headers := output_headers arr n_cols in
    Ok (map (output_row arr headers n_cols) (seq 1 (Z.to_nat n_rows - 1))).

End SelectedOutput.

(** The last column whose header is [key]. *)
Definition last_column (headers : list string) (key : string) : option nat :=
  find (fun c => String.eqb (nth c headers "") key)
    (rev (seq 0 (length headers))).

Lemma find_append {A : Type} (p : A -> bool) (l1 l2 : list A) :
  find p (l1 ++ l2) =
  match find p l1 with
  | Some x => Some x
  | None => find p l2
  end.
Proof.
  induction l1 as [|a l1 IH]; [reflexivity|].
  cbn [app find]. now destruct (p a).
Qed.

Lemma fold_insert_lookup {V : Type} (h : nat -> string) (f : nat -> V)
    (cs : list nat) (m : gmap string V) (key : string) :
  fold_left (fun row c => <[h c := f c]> row) cs m !! key =
  match find (fun c => String.eqb (h c) key) (rev cs) with
  | Some c => Some (f c)
  | None => m !! key
  end.
Proof.
  revert m. induction cs as [|c cs IH]; intros m; [reflexivity|].
  cbn [fold_left rev]. rewrite IH, find_append.
  destruct (find _ (rev cs)); [reflexivity|]. cbn [find].
  destruct (String.eqb (h c) key) eqn:E.
  - apply String.eqb_eq in E. subst key. now rewrite lookup_insert_eq.
  - apply String.eqb_neq in E. now rewrite lookup_insert_ne.
Qed.

Lemma output_headers_length {cell : Type} (str_of_cell : cell -> string)
    (arr : nat -> nat -> cell) (n_cols : Z) :
  length (output_headers str_of_cell arr n_cols) = Z.to_nat n_cols.
Proof. unfold output_headers. now rewrite length_map, length_seq. Qed.

Lemma output_row_lookup {F cell : Type} (float_of_cell : cell -> option F)
    (str_of_cell : cell -> string) (arr : nat -> nat -> cell)
    (n_cols : Z) (r : nat) (key : string) :
  output_row float_of_cell str_of_cell arr
    (output_headers str_of_cell arr n_cols) n_cols r !! key =
  (c ← last_column (output_headers str_of_cell arr n_cols) key;
   Some (cell_value float_of_cell str_of_cell (arr r c))).
Proof.
  unfold output_row, last_column.
  rewrite (fold_insert_lookup
             (fun c => nth c (output_headers str_of_cell arr n_cols) "")
             (fun c => cell_value float_of_cell str_of_cell (arr r c))).
  rewrite output_headers_length, lookup_empty.
  now destruct (find _ _).
Qed.

(** X14. The rows read from the solver's selected output: fewer than two
    array rows give RuntimeError; otherwise there is one dictionary per array
    row after the header row, and each dictionary maps a header text to the
    converted cell ([float(v)], or [str(v)] when that fails) of the last
    column carrying that header, and holds no other key. *)
Theorem X14_selected_output_rows :
  forall (F cell : Type) (float_of_cell : cell -> option F)
         (str_of_cell : cell -> string)
         (arr : nat -> nat -> cell) (n_rows n_cols : Z),
    ((n_rows < 2)%Z ->
     exists msg,
       run_phreeqc_rows float_of_cell str_of_cell arr n_rows n_cols
       = Raise (RuntimeError msg)) /\
    ((2 <= n_rows)%Z ->
     exists rows,
       run_phreeqc_rows float_of_cell str_of_cell arr n_rows n_cols = Ok rows /\
       Z.of_nat (length rows) = (n_rows - 1)%Z /\
       forall (r : nat) (row : gmap string (value F)) (key : string),
         rows !! r = Some row ->
         row !! key =
         (c ← last_column (output_headers str_of_cell arr n_cols) key;
          Some (cell_value float_of_cell str_of_cell (arr (S r) c)))).
Proof.
  intros F cell float_of_cell str_of_cell arr n_rows n_cols.
  unfold run_phreeqc_rows. split; intros Hn.
  - apply Z.ltb_lt in Hn. rewrite Hn. eauto.
  - destruct (n_rows <? 2)%Z eqn:E; [apply Z.ltb_lt in E; lia|].
    eexists. split; [reflexivity|]. split.
    + rewrite length_map, length_seq. lia.
    + intros r row key Hr.
      rewrite list_lookup_fmap in Hr.
      destruct (seq 1 (Z.to_nat n_rows - 1) !! r) as [r'|] eqn:Er;
        [|discriminate Hr].
      apply lookup_seq in Er as [-> _].
      cbn in Hr. inversion Hr; subst row.
      apply output_row_lookup.
Qed.

(** *** From the solver's array to the titration points *)

Lemma last_column_spec (headers : list string) (key : string) (c : nat) :
  last_column headers key = Some c ->
  (c < length headers)%nat /\ nth c headers "" = key.
Proof.
  unfold last_column. intros Hf. apply find_some in Hf as [Hin Heq].
  apply in_rev, in_seq in Hin. apply String.eqb_eq in Heq. split; [lia|easy].
Qed.

(** The cells under the headers the classifier reads, pH and the six boron
    columns, are all accepted by [float]. *)
Definition numeric_columns {F cell : Type} (float_of_cell : cell -> option F)
    (str_of_cell : cell -> string) (arr : nat -> nat -> cell)
    (n_rows n_cols : Z) : bool :=
  forallb (fun r =>
    forallb (fun c =>
      negb (existsb (String.eqb (str_of_cell (arr 0%nat c))) ("pH" :: boron_keys))
      || match float_of_cell (arr r c) with
         | Some _ => true
         | None => false
         end)
      (seq 0 (Z.to_nat n_cols)))
    (seq 1 (Z.to_nat n_rows - 1)).

Lemma numeric_columns_lookup {F cell : Type} (float_of_cell : cell -> option F)
    (str_of_cell : cell -> string) (arr : nat -> nat -> cell)
    (n_rows n_cols : Z) (r : nat) (key : string) :
  numeric_columns float_of_cell str_of_cell arr n_rows n_cols = true ->
  (r < Z.to_nat n_rows - 1)%nat ->
  In key ("pH" :: boron_keys) ->
  match output_row float_of_cell str_of_cell arr
          (output_headers str_of_cell arr n_cols) n_cols (S r) !! key with
  | Some (VStr _) => False
  | _ => True
  end.
Proof.
  intros Hnum Hr Hkey. rewrite output_row_lookup.
  destruct (last_column _ key) as [c|] eqn:Ec; [|exact I].
  apply last_column_spec in Ec as [Hc Hh].
  rewrite output_headers_length in Hc.
  cbn [mbind option_bind]. unfold cell_value.
  destruct (float_of_cell (arr (S r) c)) eqn:Ef; [exact I|].
  unfold numeric_columns in Hnum. rewrite forallb_forall in Hnum.
  specialize (Hnum (S r)). rewrite forallb_forall in Hnum.
  assert (Hin : In (S r) (seq 1 (Z.to_nat n_rows - 1))) by (apply in_seq; lia).
  specialize (Hnum Hin c). rewrite Ef, orb_false_r in Hnum.
  assert (Hc' : In c (seq 0 (Z.to_nat n_cols))) by (apply in_seq; lia).
  specialize (Hnum Hc'). apply negb_true_iff in Hnum.
  assert (Hex : existsb (String.eqb (str_of_cell (arr 0%nat c)))
                  ("pH" :: boron_keys) = true).
  { apply existsb_exists. exists key. split; [assumption|].
    apply String.eqb_eq. rewrite <- Hh. unfold output_headers.
    rewrite (nth_indep _ "" (str_of_cell (arr 0%nat 0%nat)))
      by (rewrite length_map, length_seq; lia).
    rewrite (map_nth (fun c => str_of_cell (arr 0%nat c))).
    now rewrite seq_nth by lia. }
  congruence.
Qed.

Lemma b64_text_free_row_ok (row : gmap string (value float)) :
  (forall key, In key ("pH" :: boron_keys) ->
     match row !! key with
     | Some (VStr _) => False
     | _ => True
     end) ->
  row_ok row = true.
Proof.
  intros Hkeys. unfold row_ok.
  assert (Ht : existsb (text_at row) boron_keys = false).
  { apply not_true_is_false. intros Hex.
    apply existsb_exists in Hex as (key & Hin & Ht).
    specialize (Hkeys key (or_intror Hin)). unfold text_at in Ht.
    destruct (row !! key) as [[x|s]|]; try discriminate. exact Hkeys. }
  destruct (b64_b4b3_ratio_returns row Ht) as [v ->].
  specialize (Hkeys "pH" (or_introl eq_refl)).
  now destruct (row !! "pH") as [[x|s]|].
Qed.

(** A made-up selected output: the header row, then the initial solution
    and four reaction rows. *)
Definition output_table : list (list (value float)) :=
  [ [VStr "state"; VStr "pH"; VStr "m_B(OH)3(mol/kgw)"; VStr "m_B(OH)4-(mol/kgw)"];
    [VStr "i_soln"; VNum 7; VNum 0; VNum 0];
    [VStr "react"; VNum 6.9; VNum 0; VNum 0];
    [VStr "react"; VNum 5.1; VNum 0.03; VNum 0.00001];
    [VStr "react"; VNum 6.25; VNum 0.03; VNum 0.001];
    [VStr "react"; VNum 6.5; VNum 0.03; VNum 0.002] ].

Definition output_array (r c : nat) : value float :=
  nth c (nth r output_table []) (VStr "").

(** The cells of [output_table] as [float] and [str] see them. *)
Definition float_of_value (v : value float) : option float :=
  match v with
  | VNum x => Some x
  | VStr _ => None
  end.

Definition str_of_value (v : value float) : string :=
  match v with
  | VNum x => Binary64.format_f 6 x
  | VStr s => s
  end.

(** X15. From the solver's array to the titration points: when the array
    has at least two rows and every cell under a pH or boron header is
    accepted by [float], reading the rows and classifying them cannot fail,
    and the points are those of the reaction rows after the first two
    (binary64). *)
Theorem X15_numeric_output_is_classified :
  forall (cell : Type) (float_of_cell : cell -> option float)
         (str_of_cell : cell -> string)
         (arr : nat -> nat -> cell) (n_rows n_cols : Z) (step_ml : float),
    (2 <= n_rows)%Z ->
    numeric_columns float_of_cell str_of_cell arr n_rows n_cols = true ->
    exists rows,
      run_phreeqc_rows float_of_cell str_of_cell arr n_rows n_cols = Ok rows /\
      classify step_ml rows =
      Ok (points step_ml (lit 0.0)
            (skipn 2 (List.filter (fun row => state_is row "react") rows))).
Proof.
  intros cell float_of_cell str_of_cell arr n_rows n_cols step_ml Hn Hnum.
  unfold run_phreeqc_rows.
  destruct (n_rows <? 2)%Z eqn:E; [apply Z.ltb_lt in E; lia|].
  eexists. split; [reflexivity|].
  apply classify_all_ok. apply forallb_forall. intros row Hin.
  apply in_map_iff in Hin as (r & <- & Hr). apply in_seq in Hr.
  destruct r as [|r]; [lia|].
  apply b64_text_free_row_ok. intros key Hkey.
  apply (numeric_columns_lookup _ _ _ n_rows); [assumption|lia|assumption].
Qed.

Lemma X15_numeric_output_is_classified_witness :
  exists rows,
    run_phreeqc_rows float_of_value str_of_value output_array 6 4 = Ok rows /\
    classify 0.1 rows =
    Ok (points 0.1 (lit 0.0)
          (skipn 2 (List.filter (fun row => state_is row "react") rows))).
Proof.
  exact (X15_numeric_output_is_classified (value float) float_of_value
           str_of_value output_array 6 4 0.1 ltac:(lia) eq_refl).
Defined.

Local Open Scope Q_scope.

(** ** Exact arithmetic: conversion, water budget, cumulative volumes *)

Lemma exact_is_zero_iff (q : Q) : is_zero q = true <-> q == 0.
Proof. cbv [is_zero Exact.number]. apply Qeq_bool_iff. Qed.

(** X16. The conversion from mg/L to mmol/kgw is undone by multiplying
    back: in exact arithmetic a returned molality times the molar mass times
    the water mass is the mg/L value; the conversion returns whenever water
    mass and molar mass are non-zero and raises ZeroDivisionError when one of
    them is zero. *)
Theorem X16_ion_conversion_round_trip :
  forall mg_per_L MW water_mass : Q,
    (forall c : Q,
       to_mmol_kgw mg_per_L MW water_mass = Ok c ->
       c * MW * water_mass == mg_per_L) /\
    (~ water_mass == 0 -> ~ MW == 0 ->
     exists c : Q, to_mmol_kgw mg_per_L MW water_mass = Ok c) /\
    (water_mass == 0 \/ MW == 0 ->
     to_mmol_kgw mg_per_L MW water_mass = Raise ZeroDivisionError).
Proof.
  intros x MW wm. unfold to_mmol_kgw, div.
  destruct (is_zero wm) eqn:Ew; cbn [mbind result_bind];
    [|destruct (is_zero MW) eqn:Em].
  - apply exact_is_zero_iff in Ew.
    split; [discriminate|]. split; [intros Hw; now destruct Hw|reflexivity].
  - apply exact_is_zero_iff in Em.
    split; [discriminate|]. split; [intros _ Hm; now destruct Hm|reflexivity].
  - assert (Hw : ~ wm == 0) by (rewrite <- exact_is_zero_iff; congruence).
    assert (Hm : ~ MW == 0) by (rewrite <- exact_is_zero_iff; congruence).
    split; [|split].
    + intros c Hc. inversion Hc; subst c. cbv [quot Exact.number]. now field.
    + eauto.
    + intros [H|H]; contradiction.
Qed.

(** *** The water line of the recipe *)







(** *** Cumulative volumes *)





(** *** The lines of the recipe *)




